(** * libvirt-helper: a shallow embedding of [helper.go]

    The program is a command-line shim: it parses twelve boolean command
    flags and two string flags, opens one libvirt connection, runs the first
    handler whose flag is set, and reports through [herr], [hok] and [hret].

    Everything the program does is an effect (a call into libvirt, a write to
    standard output, [os.Exit], a runtime panic), so the embedding is a small
    monad [Go] over a [World] that carries standard output, the log of the
    calls made so far and the state of the hypervisor.  The libvirt bindings
    and the few pieces of the Go standard library that are outside the
    repository are the fields of a [Platform] record: every theorem
    quantifies over it. *)

From Stdlib Require Import ZArith String Ascii List Bool DecimalString Lia.
Import ListNotations.

Open Scope string_scope.
Open Scope Z_scope.

(** ** Go strings *)

(** The double-quote byte (34), which the source writes escaped. *)
Definition dquote : ascii := ascii_of_nat 34.
Definition quote : string := String dquote EmptyString.

(** The line feed (10). *)
Definition newline : string := String (ascii_of_nat 10) EmptyString.

(** [strings.ReplaceAll s old new] for a non-empty [old]: scanning from the
    left, every non-overlapping occurrence of [old] is replaced by [new].
    [skip] counts the bytes of a matched occurrence still to be dropped. *)
Fixpoint replace_from (skip : nat) (s old new : string) : string :=
  match s with
  | EmptyString => EmptyString
  | String c s' =>
      match skip with
      | S k => replace_from k s' old new
      | O =>
          if prefix old s
          then new ++ replace_from (Nat.pred (String.length old)) s' old new
          else String c (replace_from O s' old new)
      end
  end.

Definition ReplaceAll (s old new : string) : string := replace_from O s old new.

(** The verb [%d] (and [%v]) at a non-negative integer. *)
Definition itoa (n : Z) : string := NilZero.string_of_uint (N.to_uint (Z.to_N n)).

Fixpoint spaces (n : nat) : string :=
  match n with
  | O => EmptyString
  | S k => String " " (spaces k)
  end.

(** ** Data model (lines 14-33) *)

Definition VirtualMachineStatus := string.

Definition VirtStatePending : VirtualMachineStatus := "pending".
Definition VirtStateRunning : VirtualMachineStatus := "running".
Definition VirtStateBlocked : VirtualMachineStatus := "blocked".
Definition VirtStatePaused : VirtualMachineStatus := "paused".
Definition VirtStateShutdown : VirtualMachineStatus := "shutdown".
Definition VirtStateShutoff : VirtualMachineStatus := "shutoff".
Definition VirtStateCrashed : VirtualMachineStatus := "crashed".
Definition VirtStateHybernating : VirtualMachineStatus := "hybernating".

(** The zero value of a Go string, which a [var] declaration leaves in the
    [State] field. *)
Definition zero_status : VirtualMachineStatus := EmptyString.

Record VirtualMachineStateInfo := {
  State : VirtualMachineStatus;
  MaxMemoryBytes : Z;   (* uint64 *)
  MemoryBytes : Z;      (* uint64 *)
  CpuTime : Z;          (* uint64 *)
  CpuCount : Z          (* uint *)
}.

(** Arithmetic on [uint64] wraps around. *)
Definition uint64_mul (a b : Z) : Z := (a * b) mod 2 ^ 64.

(** ** What the program imports from libvirt *)

(** Modelled from the spec: the eight hypervisor-native domain state codes
    (no-state, running, blocked, paused, shutdown, shutoff, crashed,
    pm-suspended) are constants of the imported libvirt package, which the
    source names but does not declare; they are libvirt's [virDomainState]
    enumeration. *)
Definition DomainState := Z.
Definition DOMAIN_NOSTATE : DomainState := 0.
Definition DOMAIN_RUNNING : DomainState := 1.
Definition DOMAIN_BLOCKED : DomainState := 2.
Definition DOMAIN_PAUSED : DomainState := 3.
Definition DOMAIN_SHUTDOWN : DomainState := 4.
Definition DOMAIN_SHUTOFF : DomainState := 5.
Definition DOMAIN_CRASHED : DomainState := 6.
Definition DOMAIN_PMSUSPENDED : DomainState := 7.

(** Modelled from the spec: the flag constants the handlers pass to libvirt
    (keep-NVRAM for undefine, the default reboot mode, the three domain
    listing filters and the guest-agent address source) are constants of the
    imported libvirt package as well. *)
Definition DOMAIN_UNDEFINE_KEEP_NVRAM : Z := 8.
Definition DOMAIN_REBOOT_DEFAULT : Z := 0.
Definition CONNECT_LIST_DOMAINS_ACTIVE : Z := 1.
Definition CONNECT_LIST_DOMAINS_INACTIVE : Z := 2.
Definition CONNECT_LIST_DOMAINS_RUNNING : Z := 16.
Definition DOMAIN_INTERFACE_ADDRESSES_SRC_AGENT : Z := 1.

(** [libvirt.DomainInfo], the answer of [GetInfo]; memory is in kilobytes. *)
Record DomainInfo := {
  di_State : DomainState;
  di_MaxMem : Z;      (* uint64 *)
  di_Memory : Z;      (* uint64 *)
  di_NrVirtCpu : Z;   (* uint *)
  di_CpuTime : Z      (* uint64 *)
}.

Record DomainIPAddress := {
  ip_Type : Z;
  ip_Addr : string;
  ip_Prefix : Z
}.

Record DomainInterface := {
  if_Name : string;
  if_Hwaddr : string;
  if_Addrs : list DomainIPAddress
}.

(** A Go [error] is used through its [Error()] message only; [nil] is
    [None]. *)
Definition error := string.

(** The methods of a domain handle that answer with an error only. *)
Inductive DomainOp :=
| UndefineFlags (flags : Z)
| Reboot (flags : Z)
| Reset (flags : Z)
| Shutdown
| Destroy
| Create
| Suspend
| Resume
| Free.

(** The environment of the process.  [Hyp] is the state of everything
    outside it (the hypervisor daemon and the file system), [Domain] the type
    of domain handles; a call answers as Go does, with a pair of a value and
    an error, and may change the outside state. *)
Record Platform (Hyp Domain : Type) := {
  lv_NewConnect : string -> Hyp -> option error * Hyp;
  lv_Close : Hyp -> Hyp;
  lv_LookupDomainByName : string -> Hyp -> (option Domain * option error) * Hyp;
  lv_DomainDefineXML : string -> Hyp -> (option Domain * option error) * Hyp;
  lv_ListAllDomains : Z -> Hyp -> (list Domain * option error) * Hyp;
  lv_GetName : Domain -> Hyp -> (string * option error) * Hyp;
  lv_GetInfo : Domain -> Hyp -> (option DomainInfo * option error) * Hyp;
  lv_ListAllInterfaceAddresses :
    Domain -> Z -> Hyp -> (list DomainInterface * option error) * Hyp;
  lv_DomainOp : DomainOp -> Domain -> Hyp -> option error * Hyp;
  (* os.ReadFile *)
  os_ReadFile : string -> Hyp -> (string * option error) * Hyp;
  (* json.Marshal at a *libvirt.Domain, nil or not *)
  json_MarshalDomain : option Domain -> string * option error;
  (* fmt.Sprintf(format) without operands *)
  fmt_Sprintf0 : string -> string;
  (* utf8.RuneCountInString, by which fmt measures a width *)
  utf8_RuneCount : string -> nat
}.

Arguments lv_NewConnect {Hyp Domain}.
Arguments lv_Close {Hyp Domain}.
Arguments lv_LookupDomainByName {Hyp Domain}.
Arguments lv_DomainDefineXML {Hyp Domain}.
Arguments lv_ListAllDomains {Hyp Domain}.
Arguments lv_GetName {Hyp Domain}.
Arguments lv_GetInfo {Hyp Domain}.
Arguments lv_ListAllInterfaceAddresses {Hyp Domain}.
Arguments lv_DomainOp {Hyp Domain}.
Arguments os_ReadFile {Hyp Domain}.
Arguments json_MarshalDomain {Hyp Domain}.
Arguments fmt_Sprintf0 {Hyp Domain}.
Arguments utf8_RuneCount {Hyp Domain}.

(** ** The command line (lines 41-55) *)

Record Flags := {
  virtualMachineState : bool;
  virtualMachineSoftReboot : bool;
  virtualMachineHardReboot : bool;
  virtualMachineShutdown : bool;
  virtualMachineShutoff : bool;
  virtualMachineStart : bool;
  virtualMachinePause : bool;
  virtualMachineResume : bool;
  virtualMachineCreate : bool;
  virtualMachineDelete : bool;
  virtualMachinesIps : bool;
  virtualMachinesStateAll : bool;
  vm : string;
  xmlTemplate : string
}.

(** The defaults of the [pflag] declarations: nothing set, both strings
    empty. *)
Definition no_flags : Flags :=
  {| virtualMachineState := false; virtualMachineSoftReboot := false;
     virtualMachineHardReboot := false; virtualMachineShutdown := false;
     virtualMachineShutoff := false; virtualMachineStart := false;
     virtualMachinePause := false; virtualMachineResume := false;
     virtualMachineCreate := false; virtualMachineDelete := false;
     virtualMachinesIps := false; virtualMachinesStateAll := false;
     vm := ""; xmlTemplate := "" |}.

(** ** The process *)

Section Process.

Context {Hyp Domain : Type}.

(** The calls the process makes to the outside, as logged in the world. *)
Inductive Call :=
| CNewConnect (uri : string)
| CClose
| CLookupDomainByName (name : string)
| CDomainDefineXML (xml : string)
| CListAllDomains (flags : Z)
| CGetName (d : Domain)
| CGetInfo (d : Domain)
| CListAllInterfaceAddresses (d : Domain) (flags : Z)
| CDomainOp (op : DomainOp) (d : Domain)
| CReadFile (path : string).

Record World := {
  stdout : string;          (* what was written to standard output *)
  stderr : list string;     (* the messages handed to the logger *)
  calls : list Call;        (* the calls made, oldest first *)
  hyp : Hyp                 (* the outside *)
}.

(** A computation returns, leaves through [os.Exit], or panics. *)
Inductive Result (A : Type) :=
| Return (a : A) (w : World)
| Exited (code : Z) (w : World)
| Panicked (w : World).

Arguments Return {A}.
Arguments Exited {A}.
Arguments Panicked {A}.

Definition Go (A : Type) := World -> Result A.

Definition ret {A} (a : A) : Go A := fun w => Return a w.

Definition bind {A B} (m : Go A) (k : A -> Go B) : Go B :=
  fun w =>
    match m w with
    | Return a w' => k a w'
    | Exited c w' => Exited c w'
    | Panicked w' => Panicked w'
    end.

Definition final_world {A} (r : Result A) : World :=
  match r with
  | Return _ w => w
  | Exited _ w => w
  | Panicked w => w
  end.

(** The status the operating system sees: 0 when [main] returns, the
    argument of [os.Exit], 2 after a panic. *)
Definition exit_status {A} (r : Result A) : Z :=
  match r with
  | Return _ _ => 0
  | Exited c _ => c
  | Panicked _ => 2
  end.

End Process.

Arguments Return {Hyp Domain A}.
Arguments Exited {Hyp Domain A}.
Arguments Panicked {Hyp Domain A}.
Arguments stdout {Hyp Domain}.
Arguments stderr {Hyp Domain}.
Arguments calls {Hyp Domain}.
Arguments hyp {Hyp Domain}.

Declare Scope go_scope.
Delimit Scope go_scope with go.

Notation "x <- c1 ;; c2" := (bind c1 (fun x => c2))
  (at level 61, c1 at next level, right associativity) : go_scope.
Notation "' pat <- c1 ;; c2" := (bind c1 (fun x => match x with pat => c2 end))
  (at level 61, pat pattern, c1 at next level, right associativity) : go_scope.
Notation "c1 ;; c2" := (bind c1 (fun _ => c2))
  (at level 61, right associativity) : go_scope.

Open Scope go_scope.

Section Program.

Context {Hyp Domain : Type}.
Variable P : Platform Hyp Domain.

Local Abbreviation World := (@World Hyp Domain).
Local Abbreviation Go := (@Go Hyp Domain).
Local Abbreviation Call := (@Call Domain).
Local Abbreviation Result := (@Result Hyp Domain).

(** *** Primitive effects *)

(** [fmt.Print] and [fmt.Printf], once the text is formatted. *)
Definition Print (s : string) : Go unit :=
  fun w =>
    Return tt {| stdout := stdout w ++ s; stderr := stderr w;
                 calls := calls w; hyp := hyp w |}.

Definition os_Exit {A} (code : Z) : Go A := fun w => Exited code w.

Definition panic {A} : Go A := fun w => Panicked w.

(** [log.Fatalf]: the message goes to the logger, then [os.Exit(1)]. *)
Definition log_Fatalf {A} (msg : string) : Go A :=
  fun w =>
    Exited 1 {| stdout := stdout w; stderr := stderr w ++ [msg];
                calls := calls w; hyp := hyp w |}.

(** A call to the outside: it is logged and answered by the platform. *)
Definition invoke {A} (c : Call) (f : Hyp -> A * Hyp) : Go A :=
  fun w =>
    let (a, h) := f (hyp w) in
    Return a {| stdout := stdout w; stderr := stderr w;
                calls := calls w ++ [c]; hyp := h |}.

(** Reading through a pointer: the nil pointer panics.  The methods of
    [*libvirt.Domain] read the handle of their receiver before anything
    else, and line 271 reads a field of the [*DomainInfo] it was given. *)
Definition deref {A} (p : option A) : Go A :=
  match p with
  | Some a => ret a
  | None => panic
  end.

(** [for _, x := range l], threading the variables the body assigns. *)
Fixpoint range {A S} (l : list A) (body : S -> A -> Go S) (s : S) : Go S :=
  match l with
  | [] => ret s
  | x :: l' => s' <- body s x ;; range l' body s'
  end.

(** [defer f(); body]: the deferred call runs when [body] returns or
    panics, and is skipped by [os.Exit]. *)
Definition defer (deferred : Go unit) (body : Go unit) : Go unit :=
  fun w =>
    match body w with
    | Return _ w' => deferred w'
    | Exited c w' => Exited c w'
    | Panicked w' =>
        match deferred w' with
        | Return _ w'' => Panicked w''
        | r => r
        end
    end.

(** *** The libvirt calls of the source *)

Definition NewConnect (uri : string) : Go (option error) :=
  invoke (CNewConnect uri) (lv_NewConnect P uri).

Definition Close : Go unit :=
  invoke CClose (fun h => (tt, lv_Close P h)).

Definition LookupDomainByName (name : string) : Go (option Domain * option error) :=
  invoke (CLookupDomainByName name) (lv_LookupDomainByName P name).

Definition DomainDefineXML (xml : string) : Go (option Domain * option error) :=
  invoke (CDomainDefineXML xml) (lv_DomainDefineXML P xml).

Definition ListAllDomains (flags : Z) : Go (list Domain * option error) :=
  invoke (CListAllDomains flags) (lv_ListAllDomains P flags).

Definition GetName (d : Domain) : Go (string * option error) :=
  invoke (CGetName d) (lv_GetName P d).

Definition ListAllInterfaceAddresses (d : Domain) (flags : Z)
  : Go (list DomainInterface * option error) :=
  invoke (CListAllInterfaceAddresses d flags) (lv_ListAllInterfaceAddresses P d flags).

(** [d.Op(...)] on a [d *Domain] that may be nil. *)
Definition method (d : option Domain) (op : DomainOp) : Go (option error) :=
  d' <- deref d ;;
  invoke (CDomainOp op d') (lv_DomainOp P op d').

(** [d.GetInfo()] on a [d *Domain] that may be nil. *)
Definition GetInfo (d : option Domain) : Go (option DomainInfo * option error) :=
  d' <- deref d ;;
  invoke (CGetInfo d') (lv_GetInfo P d').

Definition ReadFile (path : string) : Go (string * option error) :=
  invoke (CReadFile path) (os_ReadFile P path).

(** *** Result reporter (lines 307-324) *)

Definition herr (e : option error) : Go unit :=
  match e with
  | Some msg => Print (ReplaceAll msg quote "" ++ newline)
  | None => ret tt
  end.

(** The text [hok] formats: the message, without its double quotes, as the
    value of the key ok of a one-field object. *)
Definition ok_payload (message : string) : string :=
  "{" ++ quote ++ "ok" ++ quote ++ ":" ++ quote
      ++ ReplaceAll message quote "" ++ quote ++ "}".

Definition hok (message : string) : Go unit :=
  Print (ok_payload message) ;;
  os_Exit 0.

(** The values the program hands to [hret] as [any]. *)
Inductive any :=
| AnyStateInfo (i : VirtualMachineStateInfo)
| AnyDomain (d : option Domain).

(** [json.Marshal] at a string whose bytes need no escape, which is the case
    of the nine values a status takes. *)
Definition json_string (s : string) : string := quote ++ s ++ quote.

Definition json_key (k : string) : string := quote ++ k ++ quote ++ ":".

(** [json.Marshal]: a struct is the object of its exported fields in the
    order of their declaration. *)
Definition json_Marshal (i : any) : string * option error :=
  match i with
  | AnyStateInfo i =>
      ("{" ++ json_key "State" ++ json_string (State i)
        ++ "," ++ json_key "MaxMemoryBytes" ++ itoa (MaxMemoryBytes i)
        ++ "," ++ json_key "MemoryBytes" ++ itoa (MemoryBytes i)
        ++ "," ++ json_key "CpuTime" ++ itoa (CpuTime i)
        ++ "," ++ json_key "CpuCount" ++ itoa (CpuCount i) ++ "}",
       None)
  | AnyDomain d => json_MarshalDomain P d
  end.

Definition hret (i : any) : Go unit :=
  let (ret_, err) := json_Marshal i in
  herr err ;;
  Print ret_ ;;
  os_Exit 0.

(** *** State translator (lines 261-297) *)

(** The [switch] on [dominfo.State]; it has no default case, so the field
    keeps the zero value it was declared with. *)
Definition translate_state (s : DomainState) : VirtualMachineStatus :=
  if s =? DOMAIN_NOSTATE then VirtStatePending
  else if s =? DOMAIN_RUNNING then VirtStateRunning
  else if s =? DOMAIN_BLOCKED then VirtStateBlocked
  else if s =? DOMAIN_PAUSED then VirtStatePaused
  else if s =? DOMAIN_SHUTDOWN then VirtStateShutdown
  else if s =? DOMAIN_SHUTOFF then VirtStateShutoff
  else if s =? DOMAIN_CRASHED then VirtStateCrashed
  else if s =? DOMAIN_PMSUSPENDED then VirtStateHybernating
  else zero_status.

(** Lines 271-296, from the [dominfo] that was read. *)
Definition state_info_of (dominfo : DomainInfo) : VirtualMachineStateInfo :=
  {| State := translate_state (di_State dominfo);
     MaxMemoryBytes := uint64_mul (di_MaxMem dominfo) 1024;
     MemoryBytes := uint64_mul (di_Memory dominfo) 1024;
     CpuTime := di_CpuTime dominfo;
     CpuCount := di_NrVirtCpu dominfo |}.

Definition GetVirtualMachineStateInfo (vm : string) : Go VirtualMachineStateInfo :=
  '(d, err) <- LookupDomainByName vm ;;
  herr err ;;
  '(dominfo, err) <- GetInfo d ;;
  herr err ;;
  dominfo' <- deref dominfo ;;
  ret (state_info_of dominfo').

(** *** Connection bootstrap (lines 299-305) *)

Definition LibvirtInit : Go unit :=
  err <- NewConnect "qemu:///system" ;;
  match err with
  | Some e => log_Fatalf ("failed to connect: " ++ e)
  | None => ret tt
  end.

(** *** Command handlers (lines 98-203) *)

Definition VirtualMachineState (vm : string) : Go unit :=
  ret_ <- GetVirtualMachineStateInfo vm ;;
  hret (AnyStateInfo ret_).

Definition VirtualMachineCreate (xmlTemplate : string) : Go unit :=
  '(xml, err) <- ReadFile xmlTemplate ;;
  herr err ;;
  '(d, err) <- DomainDefineXML xml ;;
  herr err ;;
  hret (AnyDomain d).

Definition VirtualMachineDelete (vm : string) : Go unit :=
  '(d, err) <- LookupDomainByName vm ;;
  herr err ;;
  err <- method d (UndefineFlags DOMAIN_UNDEFINE_KEEP_NVRAM) ;;
  herr err ;;
  hok (vm ++ " was deleted").

Definition VirtualMachineSoftReboot (vm : string) : Go unit :=
  '(d, err) <- LookupDomainByName vm ;;
  herr err ;;
  err <- method d (Reboot DOMAIN_REBOOT_DEFAULT) ;;
  herr err ;;
  hok (vm ++ " was soft-rebooted successfully").

Definition VirtualMachineHardReboot (vm : string) : Go unit :=
  '(d, err) <- LookupDomainByName vm ;;
  herr err ;;
  err <- method d (Reset 0) ;;
  herr err ;;
  hok (vm ++ " was hard-rebooted successfully").

Definition VirtualMachineShutdown (vm : string) : Go unit :=
  '(d, err) <- LookupDomainByName vm ;;
  herr err ;;
  err <- method d Shutdown ;;
  herr err ;;
  hok (vm ++ " was shutdown successfully").

Definition VirtualMachineShutoff (vm : string) : Go unit :=
  '(d, err) <- LookupDomainByName vm ;;
  herr err ;;
  err <- method d Destroy ;;
  herr err ;;
  hok (vm ++ " was shutoff successfully").

Definition VirtualMachineStart (vm : string) : Go unit :=
  '(d, err) <- LookupDomainByName vm ;;
  herr err ;;
  err <- method d Create ;;
  herr err ;;
  hok (vm ++ " was started").

Definition VirtualMachinePause (vm : string) : Go unit :=
  '(d, err) <- LookupDomainByName vm ;;
  herr err ;;
  err <- method d Suspend ;;
  herr err ;;
  hok (vm ++ " is paused").

Definition VirtualMachineResume (vm : string) : Go unit :=
  '(d, err) <- LookupDomainByName vm ;;
  herr err ;;
  err <- method d Resume ;;
  herr err ;;
  hok (vm ++ " was resumed").

(** *** Enumeration handlers (lines 205-259) *)

(** The verb [%-30v] at a string: padded with spaces on the right up to
    [width] runes. *)
Definition pad_right (width : nat) (s : string) : string :=
  s ++ spaces (width - utf8_RuneCount P s).

(** Lines 224-227: each address is used as a format, then a space. *)
Definition write_addrs (out : string) (addrs : list DomainIPAddress) : string :=
  fold_left (fun o val => o ++ fmt_Sprintf0 P (ip_Addr val) ++ " ") addrs out.

(** Lines 222-232. *)
Definition write_interfaces (out : string) (ifaces : list DomainInterface) : string :=
  fold_left
    (fun o entry =>
       write_addrs (o ++ "interface - " ++ if_Name entry ++ ", address - ")
                   (if_Addrs entry) ++ newline)
    ifaces out.

Definition VirtualMachinesIps : Go unit :=
  '(AllDomains, err) <- ListAllDomains CONNECT_LIST_DOMAINS_RUNNING ;;
  herr err ;;
  OutputString <-
    range AllDomains
      (fun OutputString domain =>
         '(DomainName, err) <- GetName domain ;;
         let OutputString := OutputString ++ "Domain - " ++ DomainName ++ ":" ++ newline in
         herr err ;;
         '(AllDomainInterfaces, err) <-
            ListAllInterfaceAddresses domain DOMAIN_INTERFACE_ADDRESSES_SRC_AGENT ;;
         herr err ;;
         let OutputString := write_interfaces OutputString AllDomainInterfaces in
         method (Some domain) Free ;;
         ret OutputString)
      ("There are " ++ itoa (Z.of_nat (length AllDomains))
                    ++ " running domains:" ++ newline) ;;
  Print OutputString.

Definition PrintVirtualMachinesStatus (domains : list Domain) : Go unit :=
  range domains
    (fun _ domain =>
       '(DomainName, err) <- GetName domain ;;
       herr err ;;
       VmState <- GetVirtualMachineStateInfo DomainName ;;
       Print (pad_right 30 DomainName ++ " " ++ pad_right 15 (State VmState) ++ newline))
    tt.

Definition VirtualMachinesStateAll : Go unit :=
  '(AllDomainsActive, err) <- ListAllDomains CONNECT_LIST_DOMAINS_ACTIVE ;;
  herr err ;;
  '(AllDomainsInactiv, err) <- ListAllDomains CONNECT_LIST_DOMAINS_INACTIVE ;;
  herr err ;;
  let OutputString :=
    "There are "
      ++ itoa (Z.of_nat (length AllDomainsActive) + Z.of_nat (length AllDomainsInactiv))
      ++ " domains: " ++ itoa (Z.of_nat (length AllDomainsActive))
      ++ " active and " ++ itoa (Z.of_nat (length AllDomainsInactiv))
      ++ " inactive" in
  Print (OutputString ++ newline) ;;
  PrintVirtualMachinesStatus AllDomainsActive ;;
  PrintVirtualMachinesStatus AllDomainsInactiv.

(** *** Entry point (lines 63-96) *)

(** The [switch] of [main]: the first case whose flag is set runs, and
    nothing runs when none is. *)
Definition dispatch (fl : Flags) : Go unit :=
  if virtualMachineState fl then VirtualMachineState (vm fl)
  else if virtualMachineSoftReboot fl then VirtualMachineSoftReboot (vm fl)
  else if virtualMachineHardReboot fl then VirtualMachineHardReboot (vm fl)
  else if virtualMachineShutdown fl then VirtualMachineShutdown (vm fl)
  else if virtualMachineShutoff fl then VirtualMachineShutoff (vm fl)
  else if virtualMachineStart fl then VirtualMachineStart (vm fl)
  else if virtualMachinePause fl then VirtualMachinePause (vm fl)
  else if virtualMachineResume fl then VirtualMachineResume (vm fl)
  else if virtualMachineCreate fl then VirtualMachineCreate (xmlTemplate fl)
  else if virtualMachineDelete fl then VirtualMachineDelete (vm fl)
  else if virtualMachinesIps fl then VirtualMachinesIps
  else if virtualMachinesStateAll fl then VirtualMachinesStateAll
  else ret tt.

(** [main], after [pflag.Parse] has filled [fl]. *)
Definition main (fl : Flags) : Go unit :=
  LibvirtInit ;;
  defer Close (dispatch fl).

(** *** The commands, as the specification names them *)

Inductive Command :=
| CmdState | CmdSoftReboot | CmdHardReboot | CmdShutdown | CmdShutoff
| CmdStart | CmdPause | CmdResume | CmdCreate | CmdDelete | CmdIps | CmdShowAll.

(** The fixed priority order of the claim. *)
Definition priority : list Command :=
  [CmdState; CmdSoftReboot; CmdHardReboot; CmdShutdown; CmdShutoff; CmdStart;
   CmdPause; CmdResume; CmdCreate; CmdDelete; CmdIps; CmdShowAll].

Definition flag_set (fl : Flags) (c : Command) : bool :=
  match c with
  | CmdState => virtualMachineState fl
  | CmdSoftReboot => virtualMachineSoftReboot fl
  | CmdHardReboot => virtualMachineHardReboot fl
  | CmdShutdown => virtualMachineShutdown fl
  | CmdShutoff => virtualMachineShutoff fl
  | CmdStart => virtualMachineStart fl
  | CmdPause => virtualMachinePause fl
  | CmdResume => virtualMachineResume fl
  | CmdCreate => virtualMachineCreate fl
  | CmdDelete => virtualMachineDelete fl
  | CmdIps => virtualMachinesIps fl
  | CmdShowAll => virtualMachinesStateAll fl
  end.

(** The handler the source attaches to each flag, at the arguments [main]
    passes. *)
Definition handler (c : Command) (fl : Flags) : Go unit :=
  match c with
  | CmdState => VirtualMachineState (vm fl)
  | CmdSoftReboot => VirtualMachineSoftReboot (vm fl)
  | CmdHardReboot => VirtualMachineHardReboot (vm fl)
  | CmdShutdown => VirtualMachineShutdown (vm fl)
  | CmdShutoff => VirtualMachineShutoff (vm fl)
  | CmdStart => VirtualMachineStart (vm fl)
  | CmdPause => VirtualMachinePause (vm fl)
  | CmdResume => VirtualMachineResume (vm fl)
  | CmdCreate => VirtualMachineCreate (xmlTemplate fl)
  | CmdDelete => VirtualMachineDelete (vm fl)
  | CmdIps => VirtualMachinesIps
  | CmdShowAll => VirtualMachinesStateAll
  end.

(** The command the priority order selects: the first one whose flag is
    set. *)
Definition selected (fl : Flags) : option Command := find (flag_set fl) priority.

(** The flags that name a virtual machine through [--vm]. *)
Definition requires_vm (c : Command) : bool :=
  match c with
  | CmdCreate | CmdIps | CmdShowAll => false
  | _ => true
  end.

(** *** Observations on a run *)

Definition is_lookup (c : Call) : bool :=
  match c with
  | CLookupDomainByName _ => true
  | _ => false
  end.

(** The number of domain lookups by name among the calls made. *)
Definition lookups (w : World) : nat := length (filter is_lookup (calls w)).



(** A run reaches a success report exactly when it leaves through
    [os.Exit(0)]: the two callers of it are [hok] and [hret]. *)
Definition success_reported (r : Result unit) : Prop :=
  exists w, r = Exited 0 w.

(** The world of a fresh process. *)
Definition start (h : Hyp) : World :=
  {| stdout := ""; stderr := []; calls := []; hyp := h |}.

End Program.

(** ** What the claims speak of, in words of the specification *)

(** A message with every double-quote byte removed. *)
Definition without_quotes (s : string) : string :=
  string_of_list_ascii
    (filter (fun c => negb (Ascii.eqb c dquote)) (list_ascii_of_string s)).

(** Expected outputs are written with apostrophes where the output has
    double quotes. *)
Fixpoint dq (s : string) : string :=
  match s with
  | EmptyString => EmptyString
  | String c s' => String (if Ascii.eqb c "'" then dquote else c) (dq s')
  end.

(** The eight state codes the translator knows. *)
Definition known_states : list DomainState :=
  [DOMAIN_NOSTATE; DOMAIN_RUNNING; DOMAIN_BLOCKED; DOMAIN_PAUSED;
   DOMAIN_SHUTDOWN; DOMAIN_SHUTOFF; DOMAIN_CRASHED; DOMAIN_PMSUSPENDED].

(** ** A small hypervisor to run the program on

    The host keeps its virtual machines by name and a few files; a domain
    handle is the name it was looked up by.  It answers as libvirt does in
    the cases the scenarios need: a lookup of an absent name fails, a method
    on a vanished domain fails, an empty document cannot be defined, an
    absent file cannot be read, and [json.Marshal] prints a domain handle
    (a struct without exported fields) as the empty object and the nil
    pointer as null. *)
Module Sim.

Record VM := { name : string; info : DomainInfo }.

Record Host := {
  reachable : bool;
  vms : list VM;
  files : list (string * string)
}.

Definition Domain := string.

Definition find_vm (n : string) (h : Host) : option VM :=
  find (fun v => String.eqb (name v) n) (vms h).

Definition set_state (s : DomainState) (i : DomainInfo) : DomainInfo :=
  {| di_State := s; di_MaxMem := di_MaxMem i; di_Memory := di_Memory i;
     di_NrVirtCpu := di_NrVirtCpu i; di_CpuTime := di_CpuTime i |}.

Definition update_vm (n : string) (f : DomainInfo -> DomainInfo) (h : Host) : Host :=
  {| reachable := reachable h;
     vms := map (fun v => if String.eqb (name v) n
                          then {| name := n; info := f (info v) |} else v) (vms h);
     files := files h |}.

Definition remove_vm (n : string) (h : Host) : Host :=
  {| reachable := reachable h;
     vms := filter (fun v => negb (String.eqb (name v) n)) (vms h);
     files := files h |}.

Definition not_found (n : string) : error :=
  "Domain not found: no domain with matching name '" ++ n ++ "'".

Definition NewConnect (uri : string) (h : Host) : option error * Host :=
  if reachable h then (None, h)
  else (Some "Failed to connect socket to '/var/run/libvirt/libvirt-sock'", h).

Definition LookupDomainByName (n : string) (h : Host)
  : (option Domain * option error) * Host :=
  match find_vm n h with
  | Some _ => ((Some n, None), h)
  | None => ((None, Some (not_found n)), h)
  end.

(** The toy document of a domain is its name; a new domain is shut off. *)
Definition DomainDefineXML (xml : string) (h : Host)
  : (option Domain * option error) * Host :=
  if String.eqb xml ""
  then ((None, Some "XML error: failed to parse xml document"), h)
  else ((Some xml, None),
        {| reachable := reachable h;
           vms := vms h ++ [{| name := xml;
                               info := {| di_State := DOMAIN_SHUTOFF; di_MaxMem := 0;
                                          di_Memory := 0; di_NrVirtCpu := 1;
                                          di_CpuTime := 0 |} |}];
           files := files h |}).

Definition listed (flags : Z) (v : VM) : bool :=
  if flags =? CONNECT_LIST_DOMAINS_ACTIVE
  then negb (di_State (info v) =? DOMAIN_SHUTOFF)
  else if flags =? CONNECT_LIST_DOMAINS_INACTIVE
  then di_State (info v) =? DOMAIN_SHUTOFF
  else if flags =? CONNECT_LIST_DOMAINS_RUNNING
  then di_State (info v) =? DOMAIN_RUNNING
  else true.

Definition ListAllDomains (flags : Z) (h : Host)
  : (list Domain * option error) * Host :=
  ((map name (filter (listed flags) (vms h)), None), h).

Definition GetName (d : Domain) (h : Host) : (string * option error) * Host :=
  ((d, None), h).

Definition GetInfo (d : Domain) (h : Host)
  : (option DomainInfo * option error) * Host :=
  match find_vm d h with
  | Some v => ((Some (info v), None), h)
  | None => ((None, Some (not_found d)), h)
  end.

Definition ListAllInterfaceAddresses (d : Domain) (flags : Z) (h : Host)
  : (list DomainInterface * option error) * Host :=
  (([], None), h).

Definition DomainOp_ (op : DomainOp) (d : Domain) (h : Host) : option error * Host :=
  match find_vm d h with
  | None => (Some (not_found d), h)
  | Some _ =>
      match op with
      | UndefineFlags _ => (None, remove_vm d h)
      | Create | Resume => (None, update_vm d (set_state DOMAIN_RUNNING) h)
      | Shutdown | Destroy => (None, update_vm d (set_state DOMAIN_SHUTOFF) h)
      | Suspend => (None, update_vm d (set_state DOMAIN_PAUSED) h)
      | Reboot _ | Reset _ | Free => (None, h)
      end
  end.

Definition ReadFile (path : string) (h : Host) : (string * option error) * Host :=
  match find (fun f => String.eqb (fst f) path) (files h) with
  | Some f => ((snd f, None), h)
  | None => (("", Some ("open " ++ path ++ ": no such file or directory")), h)
  end.

Definition MarshalDomain (d : option Domain) : string * option error :=
  match d with
  | Some _ => ("{}", None)
  | None => ("null", None)
  end.

Definition platform : Platform Host Domain :=
  {| lv_NewConnect := NewConnect;
     lv_Close := fun h => h;
     lv_LookupDomainByName := LookupDomainByName;
     lv_DomainDefineXML := DomainDefineXML;
     lv_ListAllDomains := ListAllDomains;
     lv_GetName := GetName;
     lv_GetInfo := GetInfo;
     lv_ListAllInterfaceAddresses := ListAllInterfaceAddresses;
     lv_DomainOp := DomainOp_;
     os_ReadFile := ReadFile;
     json_MarshalDomain := MarshalDomain;
     fmt_Sprintf0 := fun s => s;
     utf8_RuneCount := String.length |}.

(** The machine of scenario A. *)
Definition testbox : VM :=
  {| name := "testbox";
     info := {| di_State := DOMAIN_RUNNING; di_MaxMem := 4096; di_Memory := 2048;
                di_NrVirtCpu := 2; di_CpuTime := 500 |} |}.

(** The machine of scenario D. *)
Definition archived : VM :=
  {| name := "archived";
     info := {| di_State := DOMAIN_SHUTOFF; di_MaxMem := 1024; di_Memory := 1024;
                di_NrVirtCpu := 1; di_CpuTime := 0 |} |}.

(** A machine in a state the translator does not know. *)
Definition odd : VM :=
  {| name := "odd";
     info := {| di_State := 8; di_MaxMem := 1024; di_Memory := 1024;
                di_NrVirtCpu := 1; di_CpuTime := 0 |} |}.

Definition host : Host :=
  {| reachable := true; vms := [testbox; archived; odd]; files := [] |}.

End Sim.

(** The command lines of the scenarios. *)
Definition state_testbox : Flags :=
  {| virtualMachineState := true; virtualMachineSoftReboot := false;
     virtualMachineHardReboot := false; virtualMachineShutdown := false;
     virtualMachineShutoff := false; virtualMachineStart := false;
     virtualMachinePause := false; virtualMachineResume := false;
     virtualMachineCreate := false; virtualMachineDelete := false;
     virtualMachinesIps := false; virtualMachinesStateAll := false;
     vm := "testbox"; xmlTemplate := "" |}.

Definition delete_testbox : Flags :=
  {| virtualMachineState := false; virtualMachineSoftReboot := false;
     virtualMachineHardReboot := false; virtualMachineShutdown := false;
     virtualMachineShutoff := false; virtualMachineStart := false;
     virtualMachinePause := false; virtualMachineResume := false;
     virtualMachineCreate := false; virtualMachineDelete := true;
     virtualMachinesIps := false; virtualMachinesStateAll := false;
     vm := "testbox"; xmlTemplate := "" |}.

Definition create_no_such_file : Flags :=
  {| virtualMachineState := false; virtualMachineSoftReboot := false;
     virtualMachineHardReboot := false; virtualMachineShutdown := false;
     virtualMachineShutoff := false; virtualMachineStart := false;
     virtualMachinePause := false; virtualMachineResume := false;
     virtualMachineCreate := true; virtualMachineDelete := false;
     virtualMachinesIps := false; virtualMachinesStateAll := false;
     vm := ""; xmlTemplate := "/no/such/file" |}.

Definition show_all : Flags :=
  {| virtualMachineState := false; virtualMachineSoftReboot := false;
     virtualMachineHardReboot := false; virtualMachineShutdown := false;
     virtualMachineShutoff := false; virtualMachineStart := false;
     virtualMachinePause := false; virtualMachineResume := false;
     virtualMachineCreate := false; virtualMachineDelete := false;
     virtualMachinesIps := false; virtualMachinesStateAll := true;
     vm := ""; xmlTemplate := "" |}.

(** [--delete] without [--vm]. *)
Definition delete_unnamed : Flags :=
  {| virtualMachineState := false; virtualMachineSoftReboot := false;
     virtualMachineHardReboot := false; virtualMachineShutdown := false;
     virtualMachineShutoff := false; virtualMachineStart := false;
     virtualMachinePause := false; virtualMachineResume := false;
     virtualMachineCreate := false; virtualMachineDelete := true;
     virtualMachinesIps := false; virtualMachinesStateAll := false;
     vm := ""; xmlTemplate := "" |}.

(** ** Vocabulary of the statements *)

(** A string has no double quote. *)
Definition quote_free (s : string) : Prop := ~ In dquote (list_ascii_of_string s).

(** The line [herr] writes for an error, nothing for nil. *)
Definition error_line (e : option error) : string :=
  match e with
  | Some msg => without_quotes msg ++ newline
  | None => ""
  end.

Section Observations.

Context {Hyp Domain : Type}.
Variable P : Platform Hyp Domain.

Local Abbreviation World := (@World Hyp Domain).
Local Abbreviation Go := (@Go Hyp Domain).

(** The world after [s] was written to standard output. *)
Definition printed (s : string) (w : World) : World :=
  {| stdout := stdout w ++ s; stderr := stderr w; calls := calls w; hyp := hyp w |}.

(** The world after the call [c] was answered and left the outside in
    [h]. *)
Definition called (c : Call) (h : Hyp) (w : World) : World :=
  {| stdout := stdout w; stderr := stderr w; calls := calls w ++ [c]; hyp := h |}.

(** The world of a process whose connection was just established. *)
Definition connected (h : Hyp) : World :=
  called (CNewConnect "qemu:///system") h (start h).

(** [m] adds at most [n] domain lookups to the calls, however it ends. *)
Definition lookup_bound {A} (n : nat) (m : Go A) : Prop :=
  forall w, (lookups (final_world (m w)) <= lookups w + n)%nat.

(** The shape the eight lifecycle handlers share: look the domain up, call
    one method on it, confirm. *)
Definition lifecycle (vm : string) (op : DomainOp) (message : string) : Go unit :=
  '(d, err) <- LookupDomainByName P vm ;;
  herr err ;;
  err <- method P d op ;;
  herr err ;;
  hok message.

(** The method and the confirmation of each lifecycle command. *)
Definition lifecycle_of (c : Command) (vm : string) : option (DomainOp * string) :=
  match c with
  | CmdSoftReboot => Some (Reboot DOMAIN_REBOOT_DEFAULT, vm ++ " was soft-rebooted successfully")
  | CmdHardReboot => Some (Reset 0, vm ++ " was hard-rebooted successfully")
  | CmdShutdown => Some (Shutdown, vm ++ " was shutdown successfully")
  | CmdShutoff => Some (Destroy, vm ++ " was shutoff successfully")
  | CmdStart => Some (Create, vm ++ " was started")
  | CmdPause => Some (Suspend, vm ++ " is paused")
  | CmdResume => Some (Resume, vm ++ " was resumed")
  | CmdDelete => Some (UndefineFlags DOMAIN_UNDEFINE_KEEP_NVRAM, vm ++ " was deleted")
  | _ => None
  end.

End Observations.

(** The world of a process connected to the small host. *)
Definition online : @World Sim.Host Sim.Domain := connected Sim.host.

(** ** Vocabulary of the further properties *)

Section Discipline.

Context {Hyp Domain : Type}.
Variable P : Platform Hyp Domain.

Local Abbreviation World := (@World Hyp Domain).
Local Abbreviation Go := (@Go Hyp Domain).
Local Abbreviation Call := (@Call Domain).

Definition is_close (c : Call) : bool :=
  match c with
  | CClose => true
  | _ => false
  end.

(** The number of times the connection was closed. *)
Definition closes (w : World) : nat := length (filter is_close (calls w)).

(** What every handler keeps to, however its run ends: it hands nothing to
    the logger, it does not close the connection, it only appends to standard
    output and to the calls, and if it leaves the process it is with status
    0. *)
Definition tame {A} (m : Go A) : Prop :=
  forall w : World,
    stderr (final_world (m w)) = stderr w
    /\ closes (final_world (m w)) = closes w
    /\ (exists out : string, stdout (final_world (m w)) = stdout w ++ out)
    /\ (exists cs : list Call, calls (final_world (m w)) = (calls w ++ cs)%list)
    /\ (forall (c : Z) (w' : World), m w = Exited c w' -> c = 0).

(** The calls [VirtualMachinesIps] makes for one domain, in order. *)
Definition ips_calls (d : Domain) : list Call :=
  [CGetName d;
   CListAllInterfaceAddresses d DOMAIN_INTERFACE_ADDRESSES_SRC_AGENT;
   CDomainOp Free d].

(** The calls [PrintVirtualMachinesStatus] makes for one domain whose name
    is [name] and whose lookup answers with the handle [d']. *)
Definition status_calls (d : Domain) (name : string) (d' : Domain) : list Call :=
  [CGetName d; CLookupDomainByName name; CGetInfo d'].

(** A row of the table of show-all. *)
Definition status_row (name : string) (status : VirtualMachineStatus) : string :=
  pad_right P 30 name ++ " " ++ pad_right P 15 status ++ newline.

(** The first line of show-all. *)
Definition summary_line (active inactive : nat) : string :=
  "There are " ++ itoa (Z.of_nat active + Z.of_nat inactive)
    ++ " domains: " ++ itoa (Z.of_nat active)
    ++ " active and " ++ itoa (Z.of_nat inactive) ++ " inactive" ++ newline.

(** Rows, one after the other. *)
Definition table (rows : list string) : string := fold_right append "" rows.

(** The first line of ips. *)
Definition running_line (n : nat) : string :=
  "There are " ++ itoa (Z.of_nat n) ++ " running domains:" ++ newline.

(** The addresses of an interface as ips writes them: each one formatted,
    each one followed by a space. *)
Definition address_list (addrs : list DomainIPAddress) : string :=
  table (map (fun val => fmt_Sprintf0 P (ip_Addr val) ++ " ") addrs).

(** The line of an interface. *)
Definition interface_line (entry : DomainInterface) : string :=
  "interface - " ++ if_Name entry ++ ", address - "
    ++ address_list (if_Addrs entry) ++ newline.

(** The lines of a domain: its name, then its interfaces. *)
Definition domain_block (name : string) (ifaces : list DomainInterface) : string :=
  "Domain - " ++ name ++ ":" ++ newline ++ table (map interface_line ifaces).

End Discipline.

(** A host whose daemon does not answer. *)
Definition unreachable_host : Sim.Host :=
  {| Sim.reachable := false; Sim.vms := [Sim.testbox]; Sim.files := [] |}.

(** A host that holds a template and no machine yet. *)
Definition template_host : Sim.Host :=
  {| Sim.reachable := true; Sim.vms := [];
     Sim.files := [("/etc/newbox.xml", "newbox")] |}.

(** The info the small host holds for a name, the info of a machine just
    defined when it holds none. *)
Definition info_on (h : Sim.Host) (n : string) : DomainInfo :=
  match Sim.find_vm n h with
  | Some v => Sim.info v
  | None => {| di_State := DOMAIN_SHUTOFF; di_MaxMem := 0; di_Memory := 0;
               di_NrVirtCpu := 1; di_CpuTime := 0 |}
  end.

Definition create_from_template : Flags :=
  {| virtualMachineState := false; virtualMachineSoftReboot := false;
     virtualMachineHardReboot := false; virtualMachineShutdown := false;
     virtualMachineShutoff := false; virtualMachineStart := false;
     virtualMachinePause := false; virtualMachineResume := false;
     virtualMachineCreate := true; virtualMachineDelete := false;
     virtualMachinesIps := false; virtualMachinesStateAll := false;
     vm := ""; xmlTemplate := "/etc/newbox.xml" |}.

Definition pause_testbox : Flags :=
  {| virtualMachineState := false; virtualMachineSoftReboot := false;
     virtualMachineHardReboot := false; virtualMachineShutdown := false;
     virtualMachineShutoff := false; virtualMachineStart := false;
     virtualMachinePause := true; virtualMachineResume := false;
     virtualMachineCreate := false; virtualMachineDelete := false;
     virtualMachinesIps := false; virtualMachinesStateAll := false;
     vm := "testbox"; xmlTemplate := "" |}.

Definition start_missing : Flags :=
  {| virtualMachineState := false; virtualMachineSoftReboot := false;
     virtualMachineHardReboot := false; virtualMachineShutdown := false;
     virtualMachineShutoff := false; virtualMachineStart := true;
     virtualMachinePause := false; virtualMachineResume := false;
     virtualMachineCreate := false; virtualMachineDelete := false;
     virtualMachinesIps := false; virtualMachinesStateAll := false;
     vm := "missing"; xmlTemplate := "" |}.

Definition ips_only : Flags :=
  {| virtualMachineState := false; virtualMachineSoftReboot := false;
     virtualMachineHardReboot := false; virtualMachineShutdown := false;
     virtualMachineShutoff := false; virtualMachineStart := false;
     virtualMachinePause := false; virtualMachineResume := false;
     virtualMachineCreate := false; virtualMachineDelete := false;
     virtualMachinesIps := true; virtualMachinesStateAll := false;
     vm := ""; xmlTemplate := "" |}.

(** The small hypervisor with a [GetInfo] that is refused. *)
Definition mute_platform : Platform Sim.Host Sim.Domain :=
  {| lv_NewConnect := Sim.NewConnect;
     lv_Close := fun h => h;
     lv_LookupDomainByName := Sim.LookupDomainByName;
     lv_DomainDefineXML := Sim.DomainDefineXML;
     lv_ListAllDomains := Sim.ListAllDomains;
     lv_GetName := Sim.GetName;
     lv_GetInfo := fun _ h => ((None, Some "Requested operation is not valid"), h);
     lv_ListAllInterfaceAddresses := Sim.ListAllInterfaceAddresses;
     lv_DomainOp := Sim.DomainOp_;
     os_ReadFile := Sim.ReadFile;
     json_MarshalDomain := Sim.MarshalDomain;
     fmt_Sprintf0 := fun s => s;
     utf8_RuneCount := String.length |}.


(** [--create --delete], without [--vm]. *)
Definition create_and_delete : Flags :=
  {| virtualMachineState := false; virtualMachineSoftReboot := false;
     virtualMachineHardReboot := false; virtualMachineShutdown := false;
     virtualMachineShutoff := false; virtualMachineStart := false;
     virtualMachinePause := false; virtualMachineResume := false;
     virtualMachineCreate := true; virtualMachineDelete := true;
     virtualMachinesIps := false; virtualMachinesStateAll := false;
     vm := ""; xmlTemplate := "" |}.

(** A string has no percent sign, so that as a format it has no verb. *)
Definition percent_free (s : string) : Prop := ~ In "%"%char (list_ascii_of_string s).

(** The addresses of an interface, each one as it is, each one followed by
    a space. *)
Definition plain_address_list (addrs : list DomainIPAddress) : string :=
  table (map (fun val => ip_Addr val ++ " ") addrs).

(** The line of an interface whose addresses hold no verb. *)
Definition plain_interface_line (entry : DomainInterface) : string :=
  "interface - " ++ if_Name entry ++ ", address - "
    ++ plain_address_list (if_Addrs entry) ++ newline.

(** The lines of a domain whose addresses hold no verb. *)
Definition plain_domain_block (name : string) (ifaces : list DomainInterface) : string :=
  "Domain - " ++ name ++ ":" ++ newline ++ table (map plain_interface_line ifaces).

(** An interface with two addresses, as a guest agent reports it. *)
Definition eth0 : DomainInterface :=
  {| if_Name := "eth0"; if_Hwaddr := "52:54:00:12:34:56";
     if_Addrs := [{| ip_Type := 0; ip_Addr := "192.168.122.10"; ip_Prefix := 24 |};
                  {| ip_Type := 1; ip_Addr := "fe80::5054:ff:fe12:3456";
                     ip_Prefix := 64 |}] |}.

(** The small hypervisor with a guest agent that reports [eth0] for every
    domain. *)
Definition agent_platform : Platform Sim.Host Sim.Domain :=
  {| lv_NewConnect := Sim.NewConnect;
     lv_Close := fun h => h;
     lv_LookupDomainByName := Sim.LookupDomainByName;
     lv_DomainDefineXML := Sim.DomainDefineXML;
     lv_ListAllDomains := Sim.ListAllDomains;
     lv_GetName := Sim.GetName;
     lv_GetInfo := Sim.GetInfo;
     lv_ListAllInterfaceAddresses := fun _ _ h => (([eth0], None), h);
     lv_DomainOp := Sim.DomainOp_;
     os_ReadFile := Sim.ReadFile;
     json_MarshalDomain := Sim.MarshalDomain;
     fmt_Sprintf0 := fun s => s;
     utf8_RuneCount := String.length |}.

(** * Theorems *)

(** ** Strings *)

Lemma replace_quote_without_quotes (s : string) :
  ReplaceAll s quote "" = without_quotes s.
Proof.
  unfold ReplaceAll, without_quotes.
  induction s as [|c s IH]; [reflexivity|].
  cbn [replace_from list_ascii_of_string filter].
  unfold quote at 1. cbn [prefix].
  destruct (ascii_dec dquote c) as [E|N].
  - subst c. rewrite Ascii.eqb_refl. cbn [negb].
    destruct s; cbn [prefix String.length Nat.pred append]; exact IH.
  - destruct (Ascii.eqb_spec c dquote) as [E|_]; [congruence|].
    cbn [negb string_of_list_ascii]. now rewrite IH.
Qed.



Lemma without_quotes_quote_free (s : string) : quote_free (without_quotes s).
Proof.
  unfold quote_free, without_quotes.
  rewrite list_ascii_of_string_of_list_ascii, filter_In.
  intros [_ H]. now rewrite Ascii.eqb_refl in H.
Qed.

Lemma append_assoc (a b c : string) : (a ++ b) ++ c = a ++ b ++ c.
Proof. induction a as [|x a IH]; [reflexivity|]. cbn. now rewrite IH. Qed.

Lemma append_nil_r (a : string) : a ++ "" = a.
Proof. induction a as [|x a IH]; [reflexivity|]. cbn. now rewrite IH. Qed.

Section Reporter.

Context {Hyp Domain : Type}.
Variable P : Platform Hyp Domain.

Local Abbreviation World := (@World Hyp Domain).

Lemma herr_nil (w : World) : herr None w = Return tt w.
Proof. reflexivity. Qed.

Lemma herr_some (e : error) (w : World) :
  herr (Some e) w = Return tt (printed (without_quotes e ++ newline) w).
Proof. unfold herr, Print, printed. now rewrite replace_quote_without_quotes. Qed.

Lemma printed_nil (w : World) : printed "" w = w.
Proof. destruct w. unfold printed. cbn. now rewrite append_nil_r. Qed.

Lemma printed_printed (s t : string) (w : World) :
  printed t (printed s w) = printed (s ++ t) w.
Proof. unfold printed. cbn. now rewrite append_assoc. Qed.

Lemma herr_run (e : option error) (w : World) :
  herr e w = Return tt (printed (error_line e) w).
Proof.
  destruct e; [apply herr_some|]. cbn [error_line]. now rewrite printed_nil.
Qed.

Lemma hok_run (message : string) (w : World) :
  hok message w = Exited 0 (printed (ok_payload message) w).
Proof. reflexivity. Qed.

Lemma hret_run (i : any) (w : World) :
  hret P i w =
  Exited 0 (printed (error_line (snd (json_Marshal P i)) ++ fst (json_Marshal P i)) w).
Proof.
  unfold hret. destruct (json_Marshal P i) as [s e]. unfold bind.
  rewrite herr_run. cbn [fst snd]. unfold Print, os_Exit. cbn.
  now rewrite append_assoc.
Qed.

Lemma ok_payload_shape (message : string) :
  ok_payload message = dq "{'ok':'" ++ without_quotes message ++ dq "'}".
Proof.
  unfold ok_payload. rewrite replace_quote_without_quotes. cbn.
  now rewrite ?append_assoc.
Qed.

(** The document [json.Marshal] makes of a state info, and no error. *)
Lemma json_state_info_text (i : VirtualMachineStateInfo) :
  json_Marshal P (AnyStateInfo i)
  = (dq "{'State':'" ++ State i
       ++ dq "','MaxMemoryBytes':" ++ itoa (MaxMemoryBytes i)
       ++ dq ",'MemoryBytes':" ++ itoa (MemoryBytes i)
       ++ dq ",'CpuTime':" ++ itoa (CpuTime i)
       ++ dq ",'CpuCount':" ++ itoa (CpuCount i) ++ "}",
     None).
Proof.
  cbn [json_Marshal]. unfold json_key, json_string.
  cbn [append dq Ascii.eqb Bool.eqb].
  f_equal. f_equal. rewrite ?append_assoc. cbn [append]. reflexivity.
Qed.

(** C9: for a non-nil error, [herr] appends to standard output the message
    of the error with every double-quote byte removed, followed by the line
    feed of its format, and changes nothing else; the text it appends holds no
    double quote; for the nil error it writes nothing. *)
Theorem herr_strips_quotes :
  (forall (e : error) (w : World),
      herr (Some e) w
      = Return tt {| stdout := stdout w ++ without_quotes e ++ newline;
                     stderr := stderr w; calls := calls w; hyp := hyp w |}
      /\ quote_free (without_quotes e))
  /\ (forall w : World, herr None w = Return tt w).
Proof.
  split.
  - intros e w. split; [apply herr_some | apply without_quotes_quote_free].
  - intros w. reflexivity.
Qed.

(** ** Closed forms of the runs *)

Local Abbreviation Go := (@Go Hyp Domain).
Local Abbreviation Result := (@Result Hyp Domain).

Lemma bind_Return {A B} (m : Go A) (k : A -> Go B) (w w' : World) (a : A) :
  m w = Return a w' -> bind m k w = k a w'.
Proof. unfold bind. now intros ->. Qed.

Lemma bind_herr {B} (e : option error) (k : unit -> Go B) (w : World) :
  bind (herr e) k w = k tt (printed (error_line e) w).
Proof. apply bind_Return, herr_run. Qed.

Lemma invoke_run {A} (c : Call) (f : Hyp -> A * Hyp) (w : World) :
  invoke c f w = Return (fst (f (hyp w))) (called c (snd (f (hyp w))) w).
Proof. unfold invoke. now destruct (f (hyp w)). Qed.

Lemma bind_invoke {A B} (c : Call) (f : Hyp -> A * Hyp) (k : A -> Go B) (w : World)
      (a : A) (h : Hyp) :
  f (hyp w) = (a, h) -> bind (invoke c f) k w = k a (called c h w).
Proof. intros E. apply bind_Return. now rewrite invoke_run, E. Qed.

Lemma method_Some (d : Domain) (op : DomainOp) :
  method P (Some d) op = invoke (CDomainOp op d) (lv_DomainOp P op d).
Proof. reflexivity. Qed.

Lemma GetInfo_Some (d : Domain) :
  GetInfo P (Some d) = invoke (CGetInfo d) (lv_GetInfo P d).
Proof. reflexivity. Qed.

Lemma bind_panic {A B} (k : A -> Go B) (w : World) : bind panic k w = Panicked w.
Proof. reflexivity. Qed.

Lemma lifecycle_run (vm : string) (op : DomainOp) (message : string) (w : World) :
  lifecycle P vm op message w =
  match lv_LookupDomainByName P vm (hyp w) with
  | ((d, e1), h1) =>
      let w1 := printed (error_line e1) (called (CLookupDomainByName vm) h1 w) in
      match d with
      | None => Panicked w1
      | Some d' =>
          match lv_DomainOp P op d' h1 with
          | (e2, h2) =>
              Exited 0 (printed (error_line e2 ++ ok_payload message)
                                (called (CDomainOp op d') h2 w1))
          end
      end
  end.
Proof.
  unfold lifecycle, LookupDomainByName.
  destruct (lv_LookupDomainByName P vm (hyp w)) as [[d e1] h1] eqn:E.
  rewrite (bind_invoke _ _ _ _ _ _ E), bind_herr. cbn zeta.
  destruct d as [d|]; [|reflexivity].
  rewrite method_Some.
  destruct (lv_DomainOp P op d h1) as [e2 h2] eqn:E2.
  rewrite (bind_invoke _ _ _ _ e2 h2) by exact E2.
  rewrite bind_herr, hok_run, printed_printed. reflexivity.
Qed.

Lemma handler_lifecycle (c : Command) (fl : Flags) (op : DomainOp) (message : string) :
  lifecycle_of c (vm fl) = Some (op, message) ->
  handler P c fl = lifecycle P (vm fl) op message.
Proof. destruct c; cbn; intros E; inversion E; reflexivity. Qed.

Lemma GetVirtualMachineStateInfo_run (vm : string) (w : World) :
  GetVirtualMachineStateInfo P vm w =
  match lv_LookupDomainByName P vm (hyp w) with
  | ((d, e1), h1) =>
      let w1 := printed (error_line e1) (called (CLookupDomainByName vm) h1 w) in
      match d with
      | None => Panicked w1
      | Some d' =>
          match lv_GetInfo P d' h1 with
          | ((dominfo, e2), h2) =>
              let w2 := printed (error_line e2) (called (CGetInfo d') h2 w1) in
              match dominfo with
              | None => Panicked w2
              | Some di => Return (state_info_of di) w2
              end
          end
      end
  end.
Proof.
  unfold GetVirtualMachineStateInfo, LookupDomainByName.
  destruct (lv_LookupDomainByName P vm (hyp w)) as [[d e1] h1] eqn:E.
  rewrite (bind_invoke _ _ _ _ _ _ E), bind_herr. cbn zeta.
  destruct d as [d|]; [|reflexivity].
  rewrite GetInfo_Some.
  destruct (lv_GetInfo P d h1) as [[di e2] h2] eqn:E2.
  rewrite (bind_invoke _ _ _ _ (di, e2) h2) by exact E2.
  rewrite bind_herr. destruct di; reflexivity.
Qed.

Lemma VirtualMachineCreate_run (path : string) (w : World) :
  VirtualMachineCreate P path w =
  match os_ReadFile P path (hyp w) with
  | ((xml, e1), h1) =>
      match lv_DomainDefineXML P xml h1 with
      | ((d, e2), h2) =>
          Exited 0
            (printed (error_line e2 ++ error_line (snd (json_MarshalDomain P d))
                        ++ fst (json_MarshalDomain P d))
               (called (CDomainDefineXML xml) h2
                  (printed (error_line e1) (called (CReadFile path) h1 w))))
      end
  end.
Proof.
  unfold VirtualMachineCreate, ReadFile, DomainDefineXML.
  destruct (os_ReadFile P path (hyp w)) as [[xml e1] h1] eqn:E.
  rewrite (bind_invoke _ _ _ _ _ _ E), bind_herr.
  destruct (lv_DomainDefineXML P xml h1) as [[d e2] h2] eqn:E2.
  rewrite (bind_invoke _ _ _ _ (d, e2) h2) by exact E2.
  rewrite bind_herr, hret_run, printed_printed. reflexivity.
Qed.

Lemma main_connected (fl : Flags) (h h0 : Hyp) :
  lv_NewConnect P "qemu:///system" h = (None, h0) ->
  main P fl (start h) = defer (Close P) (dispatch P fl) (connected h0).
Proof.
  intros E.
  unfold main, LibvirtInit, NewConnect, bind, invoke. cbn [start hyp].
  rewrite E. reflexivity.
Qed.

Lemma defer_Exited (deferred body : Go unit) (w w' : World) (c : Z) :
  body w = Exited c w' -> defer deferred body w = Exited c w'.
Proof. unfold defer. now intros ->. Qed.

Lemma dispatch_selected (fl : Flags) :
  dispatch P fl =
  match selected fl with
  | Some c => handler P c fl
  | None => ret tt
  end.
Proof.
  unfold dispatch, selected, priority. cbn [find flag_set].
  repeat match goal with
         | |- context [if ?b then _ else _] => destruct b; [reflexivity|]
         end.
  reflexivity.
Qed.

End Reporter.

(** ** The claims *)

Section Claims.

Context {Hyp Domain : Type}.
Variable P : Platform Hyp Domain.

Local Abbreviation World := (@World Hyp Domain).
Local Abbreviation Go := (@Go Hyp Domain).
Local Abbreviation Result := (@Result Hyp Domain).
Local Abbreviation Call := (@Call Domain).

(** The run of [--create] once the connection is up. *)
Lemma main_create (fl : Flags) (h h0 h1 h2 : Hyp) (xml : string)
      (e1 e2 : option error) (d : option Domain) :
  selected fl = Some CmdCreate ->
  lv_NewConnect P "qemu:///system" h = (None, h0) ->
  os_ReadFile P (xmlTemplate fl) h0 = ((xml, e1), h1) ->
  lv_DomainDefineXML P xml h1 = ((d, e2), h2) ->
  main P fl (start h) =
  Exited 0
    (printed (error_line e2 ++ error_line (snd (json_MarshalDomain P d))
                ++ fst (json_MarshalDomain P d))
       (called (CDomainDefineXML xml) h2
          (printed (error_line e1) (called (CReadFile (xmlTemplate fl)) h1 (connected h0))))).
Proof.
  intros S C R D. rewrite (main_connected P fl h h0 C).
  apply defer_Exited. rewrite dispatch_selected, S. cbn [handler].
  rewrite VirtualMachineCreate_run. cbn [connected called hyp].
  rewrite R, D. reflexivity.
Qed.

(** C1: a success report ([hok], [hret]) writes its payload to standard
    output and leaves the process with status 0: [hok] the ok-object of the
    message, [hret] the document of a state info or what [json.Marshal] made
    of a domain reference; an error report ([herr]) only prints the line of
    the error and returns, so that the statement after it runs, and it never
    leaves the process; hence one invocation can print several error lines
    and then a success report, as [--create] does when both the read of the
    template and the definition fail. *)
Theorem success_exits_error_continues :
  (forall (message : string) (w : World),
      hok message w
      = Exited 0 {| stdout := stdout w ++ dq "{'ok':'" ++ without_quotes message
                                ++ dq "'}";
                    stderr := stderr w; calls := calls w; hyp := hyp w |})
  /\ (forall (i : VirtualMachineStateInfo) (w : World),
         hret P (AnyStateInfo i) w
         = Exited 0
             {| stdout := stdout w ++ dq "{'State':'" ++ State i
                            ++ dq "','MaxMemoryBytes':" ++ itoa (MaxMemoryBytes i)
                            ++ dq ",'MemoryBytes':" ++ itoa (MemoryBytes i)
                            ++ dq ",'CpuTime':" ++ itoa (CpuTime i)
                            ++ dq ",'CpuCount':" ++ itoa (CpuCount i) ++ "}";
                stderr := stderr w; calls := calls w; hyp := hyp w |})
  /\ (forall (d : option Domain) (w : World),
         hret P (AnyDomain d) w
         = Exited 0
             {| stdout := stdout w ++ error_line (snd (json_MarshalDomain P d))
                            ++ fst (json_MarshalDomain P d);
                stderr := stderr w; calls := calls w; hyp := hyp w |})
  /\ (forall (e : error) (w : World),
         herr (Some e) w
         = Return tt {| stdout := stdout w ++ without_quotes e ++ newline;
                        stderr := stderr w; calls := calls w; hyp := hyp w |})
  /\ (forall (e : option error) (B : Type) (k : unit -> Go B) (w : World),
         bind (herr e) k w
         = k tt {| stdout := stdout w ++ error_line e;
                   stderr := stderr w; calls := calls w; hyp := hyp w |})
  /\ (forall (e : option error) (w : World),
         exit_status (herr e w) = 0
         /\ forall (c : Z) (w' : World), herr e w <> Exited c w')
  /\ (forall (fl : Flags) (h h0 h1 h2 : Hyp) (xml : string) (e1 e2 : error)
             (d : option Domain) (s : string),
         selected fl = Some CmdCreate ->
         lv_NewConnect P "qemu:///system" h = (None, h0) ->
         os_ReadFile P (xmlTemplate fl) h0 = ((xml, Some e1), h1) ->
         lv_DomainDefineXML P xml h1 = ((d, Some e2), h2) ->
         json_MarshalDomain P d = (s, None) ->
         exists w' : World,
           main P fl (start h) = Exited 0 w'
           /\ stdout w' = (without_quotes e1 ++ newline)
                            ++ (without_quotes e2 ++ newline) ++ s).
Proof.
  split; [|split; [|split; [|split; [|split; [|split]]]]].
  - intros. rewrite hok_run, ok_payload_shape. reflexivity.
  - intros. rewrite hret_run, json_state_info_text. reflexivity.
  - intros. rewrite hret_run. reflexivity.
  - intros. apply herr_some.
  - intros. apply bind_herr.
  - intros e w. rewrite herr_run. split; [reflexivity | discriminate].
  - intros fl h h0 h1 h2 xml e1 e2 d s S C R D M.
    eexists. split; [exact (main_create fl h h0 h1 h2 xml _ _ d S C R D)|].
    rewrite M. cbn. now rewrite !append_assoc.
Qed.

(** C2, as the code has it: when the template cannot be read, the line of
    the read error is the first thing on standard output, and the handler
    goes on: what [ReadFile] returned is handed to [DomainDefineXML], the
    error of that call is reported if there is one, and [hret] is reached,
    which writes the serialised domain reference and leaves with status
    0. *)
Theorem create_unreadable_template_goes_on
        (fl : Flags) (h h0 h1 h2 : Hyp) (xml : string) (e1 : error)
        (e2 : option error) (d : option Domain) :
  selected fl = Some CmdCreate ->
  lv_NewConnect P "qemu:///system" h = (None, h0) ->
  os_ReadFile P (xmlTemplate fl) h0 = ((xml, Some e1), h1) ->
  lv_DomainDefineXML P xml h1 = ((d, e2), h2) ->
  exists w' : World,
    main P fl (start h) = Exited 0 w'
    /\ stdout w' = (without_quotes e1 ++ newline)
                     ++ error_line e2
                     ++ error_line (snd (json_MarshalDomain P d))
                     ++ fst (json_MarshalDomain P d)
    /\ calls w' = [CNewConnect "qemu:///system"; CReadFile (xmlTemplate fl);
                   CDomainDefineXML xml]
    /\ success_reported (main P fl (start h)).
Proof.
  intros S C R D.
  pose proof (main_create fl h h0 h1 h2 xml _ _ d S C R D) as E.
  eexists. split; [exact E|]. split; [|split].
  - cbn. now rewrite !append_assoc.
  - reflexivity.
  - eexists. exact E.
Qed.

(** The run of a lifecycle command once the connection is up, when the
    lookup answers with a domain. *)
Lemma main_lifecycle (fl : Flags) (c : Command) (op : DomainOp) (message : string)
      (h h0 h1 h2 : Hyp) (d : Domain) (e1 e2 : option error) :
  selected fl = Some c ->
  lifecycle_of c (vm fl) = Some (op, message) ->
  lv_NewConnect P "qemu:///system" h = (None, h0) ->
  lv_LookupDomainByName P (vm fl) h0 = ((Some d, e1), h1) ->
  lv_DomainOp P op d h1 = (e2, h2) ->
  main P fl (start h) =
  Exited 0
    (printed (error_line e2 ++ ok_payload message)
       (called (CDomainOp op d) h2
          (printed (error_line e1)
             (called (CLookupDomainByName (vm fl)) h1 (connected h0))))).
Proof.
  intros S L C K O. rewrite (main_connected P fl h h0 C).
  apply defer_Exited. rewrite dispatch_selected, S.
  rewrite (handler_lifecycle P c fl op message L), lifecycle_run.
  cbn [connected called hyp]. rewrite K. cbn zeta. rewrite O. reflexivity.
Qed.


(** C5: [--state --vm=testbox] against a machine whose info is the running
    code, 4096 KB of maximum memory, 2048 KB of memory, 2 virtual CPUs and
    cpu-time 500 writes exactly the state-info document of scenario A to
    standard output and leaves with status 0. *)
Theorem state_of_testbox
        (fl : Flags) (h h0 h1 h2 : Hyp) (d : Domain) :
  virtualMachineState fl = true ->
  vm fl = "testbox" ->
  lv_NewConnect P "qemu:///system" h = (None, h0) ->
  lv_LookupDomainByName P "testbox" h0 = ((Some d, None), h1) ->
  lv_GetInfo P d h1
  = ((Some {| di_State := DOMAIN_RUNNING; di_MaxMem := 4096; di_Memory := 2048;
              di_NrVirtCpu := 2; di_CpuTime := 500 |}, None), h2) ->
  exists w' : World,
    main P fl (start h) = Exited 0 w'
    /\ stdout w'
       = dq "{'State':'running','MaxMemoryBytes':4194304,'MemoryBytes':2097152,'CpuTime':500,'CpuCount':2}"
    /\ exit_status (main P fl (start h)) = 0.
Proof.
  intros S V C K G.
  assert (E : exists w', main P fl (start h) = Exited 0 w' /\ stdout w' =
    dq "{'State':'running','MaxMemoryBytes':4194304,'MemoryBytes':2097152,'CpuTime':500,'CpuCount':2}").
  { rewrite (main_connected P fl h h0 C).
    unfold dispatch. rewrite S, V. unfold VirtualMachineState.
    eexists. split.
    - apply defer_Exited.
      erewrite bind_Return
        by (rewrite GetVirtualMachineStateInfo_run; cbn [connected called hyp];
            rewrite K; cbn zeta; rewrite G; reflexivity).
      apply hret_run.
    - reflexivity. }
  destruct E as [w' [E Out]]. exists w'. split; [exact E|]. split; [exact Out|].
  now rewrite E.
Qed.

(** C3, as the code has it: each of the eight known state codes is
    translated to the status constant of the same name, every other code
    leaves the status at the zero value of the field, and
    [GetVirtualMachineStateInfo] returns that translation (it does not
    crash on the code) whenever the lookup and the query answered. *)
Theorem state_translation :
  (translate_state DOMAIN_NOSTATE = VirtStatePending
   /\ translate_state DOMAIN_RUNNING = VirtStateRunning
   /\ translate_state DOMAIN_BLOCKED = VirtStateBlocked
   /\ translate_state DOMAIN_PAUSED = VirtStatePaused
   /\ translate_state DOMAIN_SHUTDOWN = VirtStateShutdown
   /\ translate_state DOMAIN_SHUTOFF = VirtStateShutoff
   /\ translate_state DOMAIN_CRASHED = VirtStateCrashed
   /\ translate_state DOMAIN_PMSUSPENDED = VirtStateHybernating)
  /\ (forall s : DomainState, ~ In s known_states -> translate_state s = zero_status)
  /\ (forall (vm : string) (w : World) (d : Domain) (e1 e2 : option error)
             (h1 h2 : Hyp) (di : DomainInfo),
         lv_LookupDomainByName P vm (hyp w) = ((Some d, e1), h1) ->
         lv_GetInfo P d h1 = ((Some di, e2), h2) ->
         exists (i : VirtualMachineStateInfo) (w' : World),
           GetVirtualMachineStateInfo P vm w = Return i w'
           /\ State i = translate_state (di_State di)).
Proof.
  split; [repeat split|]. split.
  - intros s N. unfold translate_state.
    repeat match goal with
           | |- context [?a =? ?b] =>
               destruct (Z.eqb_spec a b) as [->|_];
               [exfalso; apply N; unfold known_states; cbn; tauto|]
           end.
    reflexivity.
  - intros vm w d e1 e2 h1 h2 di K G.
    rewrite GetVirtualMachineStateInfo_run, K. cbn zeta. rewrite G.
    eexists. eexists. split; reflexivity.
Qed.

(** C6: the memory fields of the state info are the kilobyte values of the
    hypervisor multiplied by 1024 in 64-bit unsigned arithmetic: the product
    modulo 2^64, hence the exact product of a non-negative value whenever it
    fits in 64 bits. *)
Theorem memory_in_bytes
        (vm : string) (w : World) (d : Domain) (e1 e2 : option error)
        (h1 h2 : Hyp) (di : DomainInfo) :
  lv_LookupDomainByName P vm (hyp w) = ((Some d, e1), h1) ->
  lv_GetInfo P d h1 = ((Some di, e2), h2) ->
  0 <= di_Memory di ->
  0 <= di_MaxMem di ->
  exists (i : VirtualMachineStateInfo) (w' : World),
    GetVirtualMachineStateInfo P vm w = Return i w'
    /\ MemoryBytes i = (di_Memory di * 1024) mod 2 ^ 64
    /\ MaxMemoryBytes i = (di_MaxMem di * 1024) mod 2 ^ 64
    /\ (di_Memory di * 1024 < 2 ^ 64 -> MemoryBytes i = di_Memory di * 1024)
    /\ (di_MaxMem di * 1024 < 2 ^ 64 -> MaxMemoryBytes i = di_MaxMem di * 1024).
Proof.
  intros K G M X.
  rewrite GetVirtualMachineStateInfo_run, K. cbn zeta. rewrite G.
  eexists. eexists. split; [reflexivity|].
  cbn [state_info_of MemoryBytes MaxMemoryBytes]. unfold uint64_mul.
  repeat split; try reflexivity; intros B; apply Z.mod_small; lia.
Qed.

(** The first element a list search finds: everything before it fails the
    test. *)
Lemma find_first {A} (f : A -> bool) (l : list A) (x : A) :
  find f l = Some x ->
  f x = true
  /\ exists pre post, l = (pre ++ x :: post)%list /\ forall y, In y pre -> f y = false.
Proof.
  induction l as [|a l IH]; [discriminate|].
  cbn [find]. destruct (f a) eqn:Fa.
  - intros E. inversion E. subst a. split; [exact Fa|].
    exists [], l. split; [reflexivity | intros y []].
  - intros E. destruct (IH E) as [Fx [pre [post [-> Hpre]]]].
    split; [exact Fx|]. exists (a :: pre), post. split; [reflexivity|].
    intros y [<-|I]; [exact Fa | now apply Hpre].
Qed.

Lemma priority_complete (c : Command) : In c priority.
Proof. destruct c; cbn; tauto. Qed.

(** C4: the switch runs the handler of the first flag that is set, in the
    order state, soft-reboot, hard-reboot, shutdown, shutoff, start, pause,
    resume, create, delete, ips, show-all, and no other; with no flag set
    it runs nothing, and the process, once connected, only closes the
    connection, writes nothing and leaves with status 0. *)
Theorem first_set_flag_runs (fl : Flags) :
  dispatch P fl
  = match selected fl with
    | Some c => handler P c fl
    | None => ret tt
    end
  /\ (forall c : Command,
         selected fl = Some c ->
         flag_set fl c = true
         /\ exists pre post : list Command,
             priority = (pre ++ c :: post)%list
             /\ forall c' : Command, In c' pre -> flag_set fl c' = false)
  /\ (selected fl = None <-> forall c : Command, flag_set fl c = false)
  /\ (forall c' : Command,
         flag_set fl c' = true -> exists c : Command, selected fl = Some c)
  /\ (forall h h0 : Hyp,
         lv_NewConnect P "qemu:///system" h = (None, h0) ->
         main P fl (start h)
         = defer (Close P)
                 match selected fl with
                 | Some c => handler P c fl
                 | None => ret tt
                 end
                 (connected h0))
  /\ (forall h h0 : Hyp,
         lv_NewConnect P "qemu:///system" h = (None, h0) ->
         (forall c : Command, flag_set fl c = false) ->
         main P fl (start h)
         = Return tt {| stdout := ""; stderr := [];
                        calls := [CNewConnect "qemu:///system"; CClose];
                        hyp := lv_Close P h0 |}
         /\ exit_status (main P fl (start h)) = 0).
Proof.
  assert (N : selected fl = None <-> forall c : Command, flag_set fl c = false).
  { unfold selected. split.
    - intros E c. exact (find_none _ _ E c (priority_complete c)).
    - intros A. destruct (find (flag_set fl) priority) as [c|] eqn:E; [|reflexivity].
      apply find_some in E. destruct E as [_ E]. rewrite A in E. discriminate. }
  split; [apply dispatch_selected|]. split; [|split; [exact N|split; [|split]]].
  - intros c E. exact (find_first _ _ _ E).
  - intros c' F. destruct (selected fl) as [c|]; [now exists c|].
    rewrite (proj1 N eq_refl c') in F. discriminate.
  - intros h h0 C. rewrite (main_connected P fl h h0 C), dispatch_selected. reflexivity.
  - intros h h0 C A. apply N in A.
    rewrite (main_connected P fl h h0 C), dispatch_selected, A. split; reflexivity.
Qed.

(** C10, as the code has it: when the command the switch selects takes its
    machine from [--vm] and [--vm] was omitted, its handler runs with the
    empty name, and the whole run is the run of a lookup of the empty name:
    if the lookup answers with no domain, its error is reported by [herr]
    and the run panics on the nil handle; if it answers with a domain, a
    lifecycle command makes its one call on it and confirms, and the state
    query asks for the info and writes the document.  Standard output holds
    the error lines of these calls and the report and nothing else, and the
    logger receives nothing: there is no usage or validation message. *)
Theorem vm_flag_without_name
        (fl : Flags) (c : Command) (h h0 h1 : Hyp)
        (d : option Domain) (e1 : option error) :
  selected fl = Some c ->
  requires_vm c = true ->
  vm fl = "" ->
  lv_NewConnect P "qemu:///system" h = (None, h0) ->
  lv_LookupDomainByName P "" h0 = ((d, e1), h1) ->
  (c = CmdState \/ exists op message, lifecycle_of c "" = Some (op, message))
  /\ match d with
     | None =>
         main P fl (start h)
         = Panicked
             {| stdout := error_line e1; stderr := [];
                calls := [CNewConnect "qemu:///system"; CLookupDomainByName "";
                          CClose];
                hyp := lv_Close P h1 |}
     | Some d' =>
         (forall (op : DomainOp) (message : string) (e2 : option error) (h2 : Hyp),
             lifecycle_of c "" = Some (op, message) ->
             lv_DomainOp P op d' h1 = (e2, h2) ->
             main P fl (start h)
             = Exited 0
                 {| stdout := error_line e1 ++ error_line e2
                                ++ dq "{'ok':'" ++ without_quotes message ++ dq "'}";
                    stderr := [];
                    calls := [CNewConnect "qemu:///system"; CLookupDomainByName "";
                              CDomainOp op d'];
                    hyp := h2 |})
         /\ (forall (di : option DomainInfo) (e2 : option error) (h2 : Hyp),
                c = CmdState ->
                lv_GetInfo P d' h1 = ((di, e2), h2) ->
                match di with
                | None =>
                    main P fl (start h)
                    = Panicked
                        {| stdout := error_line e1 ++ error_line e2; stderr := [];
                           calls := [CNewConnect "qemu:///system";
                                     CLookupDomainByName ""; CGetInfo d'; CClose];
                           hyp := lv_Close P h2 |}
                | Some di' =>
                    main P fl (start h)
                    = Exited 0
                        {| stdout :=
                             error_line e1 ++ error_line e2
                               ++ dq "{'State':'" ++ translate_state (di_State di')
                               ++ dq "','MaxMemoryBytes':"
                               ++ itoa ((di_MaxMem di' * 1024) mod 2 ^ 64)
                               ++ dq ",'MemoryBytes':"
                               ++ itoa ((di_Memory di' * 1024) mod 2 ^ 64)
                               ++ dq ",'CpuTime':" ++ itoa (di_CpuTime di')
                               ++ dq ",'CpuCount':" ++ itoa (di_NrVirtCpu di') ++ "}";
                           stderr := [];
                           calls := [CNewConnect "qemu:///system";
                                     CLookupDomainByName ""; CGetInfo d'];
                           hyp := h2 |}
                end)
     end.
Proof.
  intros S R V C K. split.
  { destruct c; try discriminate R; first [left; reflexivity | right; do 2 eexists; reflexivity]. }
  destruct d as [d'|].
  - split.
    + intros op message e2 h2 L O.
      rewrite <- V in L, K.
      rewrite (main_lifecycle fl c op message h h0 h1 h2 d' e1 e2 S L C K O).
      rewrite V. unfold printed, called, connected, start.
      cbn [stdout stderr calls hyp app append].
      rewrite ok_payload_shape, ?append_assoc. reflexivity.
    + intros di e2 h2 -> G.
      rewrite (main_connected P fl h h0 C), dispatch_selected, S. cbn [handler].
      unfold defer, VirtualMachineState, bind.
      rewrite GetVirtualMachineStateInfo_run, V. cbn [connected called hyp].
      rewrite K. cbn zeta. rewrite G.
      destruct di as [di'|]; [|reflexivity].
      rewrite hret_run, json_state_info_text.
      unfold printed, called, start.
      cbn [stdout stderr calls hyp app fst snd error_line state_info_of
             State MaxMemoryBytes MemoryBytes CpuTime CpuCount].
      unfold uint64_mul. rewrite ?append_nil_r, ?append_assoc. reflexivity.
  - rewrite (main_connected P fl h h0 C), dispatch_selected, S. unfold defer.
    destruct (lifecycle_of c (vm fl)) as [[op message]|] eqn:L.
    + rewrite (handler_lifecycle P c fl op message L), lifecycle_run, V.
      cbn [connected called hyp]. rewrite K. reflexivity.
    + destruct c; try discriminate. cbn [handler].
      unfold VirtualMachineState, bind. rewrite GetVirtualMachineStateInfo_run, V.
      cbn [connected called hyp]. rewrite K. reflexivity.
Qed.

(** *** Counting lookups *)

Lemma lookups_printed (s : string) (w : World) : lookups (printed s w) = lookups w.
Proof. reflexivity. Qed.

Lemma lookups_called (c : Call) (h : Hyp) (w : World) :
  lookups (called c h w) = (lookups w + if is_lookup c then 1 else 0)%nat.
Proof.
  unfold lookups, called. cbn [calls].
  rewrite filter_app, length_app. cbn [filter]. now destruct (is_lookup c).
Qed.

Lemma lb_weaken {A} (n k : nat) (m : Go A) :
  lookup_bound n m -> (n <= k)%nat -> lookup_bound k m.
Proof. intros H L w. specialize (H w). lia. Qed.

Lemma lb_ret {A} (a : A) : lookup_bound 0 (ret a : Go A).
Proof. intros w. cbn. lia. Qed.

Lemma lb_panic {A} : lookup_bound 0 (panic : Go A).
Proof. intros w. cbn. lia. Qed.

Lemma lb_Print (s : string) : lookup_bound 0 (Print s : Go unit).
Proof. intros w. cbn. unfold lookups. cbn. lia. Qed.

Lemma lb_bind {A B} (n k : nat) (m : Go A) (f : A -> Go B) :
  lookup_bound n m -> (forall a, lookup_bound k (f a)) -> lookup_bound (n + k) (bind m f).
Proof.
  intros Hm Hf w. unfold bind. specialize (Hm w).
  destruct (m w) as [a w'|c w'|w']; cbn [final_world] in *; [|lia|lia].
  specialize (Hf a w'). lia.
Qed.

Lemma lb_invoke {A} (c : Call) (f : Hyp -> A * Hyp) :
  lookup_bound (if is_lookup c then 1 else 0) (invoke c f).
Proof.
  intros w. rewrite invoke_run. cbn [final_world]. rewrite lookups_called. lia.
Qed.

Lemma lb_invoke_other {A} (c : Call) (f : Hyp -> A * Hyp) :
  is_lookup c = false -> lookup_bound 0 (invoke c f).
Proof. intros E. pose proof (lb_invoke c f) as H. now rewrite E in H. Qed.

Lemma lb_invoke_lookup {A} (c : Call) (f : Hyp -> A * Hyp) :
  lookup_bound 1 (invoke c f).
Proof. eapply lb_weaken; [apply lb_invoke|]. destruct (is_lookup c); lia. Qed.

Lemma lb_herr (e : option error) : lookup_bound 0 (herr e : Go unit).
Proof. intros w. rewrite herr_run. cbn [final_world]. rewrite lookups_printed. lia. Qed.

Lemma lb_hok (message : string) : lookup_bound 0 (hok message : Go unit).
Proof. intros w. rewrite hok_run. cbn [final_world]. rewrite lookups_printed. lia. Qed.

Lemma lb_hret (i : any) : lookup_bound 0 (hret P i).
Proof. intros w. rewrite hret_run. cbn [final_world]. rewrite lookups_printed. lia. Qed.

Lemma lb_deref {A} (p : option A) : lookup_bound 0 (deref p : Go A).
Proof. destruct p; [apply lb_ret | apply lb_panic]. Qed.

Lemma lb_range {A S} (k : nat) (l : list A) (body : S -> A -> Go S) :
  (forall s x, lookup_bound k (body s x)) ->
  forall s, lookup_bound (length l * k) (range l body s).
Proof.
  intros Hb. induction l as [|x l IH]; intros s; cbn [range].
  - apply lb_ret.
  - apply (lb_bind k (length l * k)); [apply Hb | apply IH].
Qed.

Lemma lb_range_0 {A S} (l : list A) (body : S -> A -> Go S) :
  (forall s x, lookup_bound 0 (body s x)) ->
  forall s, lookup_bound 0 (range l body s).
Proof.
  intros Hb s. eapply lb_weaken; [apply (lb_range 0 l body Hb)|lia].
Qed.

Create HintDb lookups.
#[local] Hint Resolve lb_ret lb_panic lb_Print lb_herr lb_hok lb_hret lb_deref : lookups.

(** One step of the count: a known leaf, a call, a sequence or a case
    analysis on an answer. *)
Ltac lb_step :=
  match goal with
  | |- forall _, _ => intro
  | |- lookup_bound _ (match ?x with (_, _) => _ end) => destruct x
  | |- lookup_bound _ (bind _ _) => eapply lb_bind
  | |- lookup_bound _ (invoke _ _) =>
      first [apply lb_invoke_other; reflexivity | apply lb_invoke_lookup]
  | |- lookup_bound _ _ => solve [auto with lookups]
  end.

Ltac lb_count := eapply lb_weaken; [repeat lb_step | cbn; lia].

Lemma lb_lifecycle (vm : string) (op : DomainOp) (message : string) :
  lookup_bound 1 (lifecycle P vm op message).
Proof. unfold lifecycle, LookupDomainByName, method. lb_count. Qed.

Lemma lb_GetVirtualMachineStateInfo (vm : string) :
  lookup_bound 1 (GetVirtualMachineStateInfo P vm).
Proof. unfold GetVirtualMachineStateInfo, LookupDomainByName, GetInfo. lb_count. Qed.

Lemma lb_VirtualMachineState (vm : string) :
  lookup_bound 1 (VirtualMachineState P vm).
Proof.
  unfold VirtualMachineState.
  eapply lb_weaken; [eapply lb_bind; [apply lb_GetVirtualMachineStateInfo | intro; apply lb_hret]|lia].
Qed.

Lemma lb_VirtualMachineCreate (path : string) :
  lookup_bound 0 (VirtualMachineCreate P path).
Proof. unfold VirtualMachineCreate, ReadFile, DomainDefineXML. lb_count. Qed.

Lemma lb_VirtualMachinesIps : lookup_bound 0 (VirtualMachinesIps P).
Proof.
  unfold VirtualMachinesIps, ListAllDomains.
  eapply lb_weaken.
  - eapply lb_bind; [apply lb_invoke_other; reflexivity|]. intros [AllDomains err].
    eapply lb_bind; [apply lb_herr|]. intros _.
    eapply lb_bind; [|intro; apply lb_Print].
    apply lb_range_0. intros s x.
    unfold GetName, ListAllInterfaceAddresses, method. lb_count.
  - cbn. lia.
Qed.

Lemma lb_PrintVirtualMachinesStatus (domains : list Domain) :
  lookup_bound (length domains) (PrintVirtualMachinesStatus P domains).
Proof.
  unfold PrintVirtualMachinesStatus.
  eapply lb_weaken; [apply (lb_range 1)|lia].
  intros s x. unfold GetName. eapply lb_weaken.
  - eapply lb_bind; [apply lb_invoke_other; reflexivity|]. intros [DomainName err].
    eapply lb_bind; [apply lb_herr|]. intros _.
    eapply lb_bind; [apply lb_GetVirtualMachineStateInfo|]. intros VmState.
    apply lb_Print.
  - cbn. lia.
Qed.

Lemma lb_VirtualMachinesStateAll (w : World) (act inact : list Domain)
      (e1 e2 : option error) (h1 h2 : Hyp) :
  lv_ListAllDomains P CONNECT_LIST_DOMAINS_ACTIVE (hyp w) = ((act, e1), h1) ->
  lv_ListAllDomains P CONNECT_LIST_DOMAINS_INACTIVE h1 = ((inact, e2), h2) ->
  (lookups (final_world (VirtualMachinesStateAll P w))
   <= lookups w + length act + length inact)%nat.
Proof.
  intros A I. unfold VirtualMachinesStateAll, ListAllDomains.
  rewrite (bind_invoke _ _ _ _ _ _ A), bind_herr.
  rewrite (bind_invoke _ _ _ _ (inact, e2) h2) by exact I.
  rewrite bind_herr.
  match goal with
  | |- (lookups (final_world (?m ?w0)) <= _)%nat =>
      assert (B : lookup_bound (0 + (length act + length inact)) m)
  end.
  { eapply lb_bind; [apply lb_Print|]. intros _.
    eapply lb_bind; [apply lb_PrintVirtualMachinesStatus|]. intros _.
    apply lb_PrintVirtualMachinesStatus. }
  etransitivity; [apply B|].
  repeat (rewrite lookups_printed || rewrite lookups_called). cbn [is_lookup]. lia.
Qed.

(** C8, as the code has it: every handler but show-all makes at most one
    domain lookup by name in an invocation (create and ips make none);
    show-all makes one per domain it enumerates, so at most as many as
    there are active and inactive domains; and a state snapshot is returned
    exactly when the lookup and the [GetInfo] query of that same call
    answered, and is the translation of that answer. *)
Theorem lookups_per_handler :
  (forall (c : Command) (fl : Flags) (w : World),
      c <> CmdShowAll ->
      (lookups (final_world (handler P c fl w)) <= lookups w + 1)%nat)
  /\ (forall (c : Command) (fl : Flags) (w : World),
         c = CmdCreate \/ c = CmdIps ->
         (lookups (final_world (handler P c fl w)) <= lookups w)%nat)
  /\ (forall (fl : Flags) (w : World) (act inact : list Domain)
             (e1 e2 : option error) (h1 h2 : Hyp),
         lv_ListAllDomains P CONNECT_LIST_DOMAINS_ACTIVE (hyp w) = ((act, e1), h1) ->
         lv_ListAllDomains P CONNECT_LIST_DOMAINS_INACTIVE h1 = ((inact, e2), h2) ->
         (lookups (final_world (handler P CmdShowAll fl w))
          <= lookups w + length act + length inact)%nat)
  /\ (forall (vm : string) (w w' : World) (i : VirtualMachineStateInfo),
         GetVirtualMachineStateInfo P vm w = Return i w'
         <-> exists (d : Domain) (di : DomainInfo) (e1 e2 : option error) (h1 h2 : Hyp),
             lv_LookupDomainByName P vm (hyp w) = ((Some d, e1), h1)
             /\ lv_GetInfo P d h1 = ((Some di, e2), h2)
             /\ i = state_info_of di
             /\ w' = printed (error_line e2)
                       (called (CGetInfo d) h2
                          (printed (error_line e1)
                             (called (CLookupDomainByName vm) h1 w)))).
Proof.
  split; [|split; [|split]].
  - intros c fl w N.
    destruct (lifecycle_of c (vm fl)) as [[op message]|] eqn:L.
    + rewrite (handler_lifecycle P c fl op message L). apply lb_lifecycle.
    + destruct c; try discriminate; try congruence; cbn [handler].
      * apply lb_VirtualMachineState.
      * pose proof (lb_VirtualMachineCreate (xmlTemplate fl) w). lia.
      * pose proof (lb_VirtualMachinesIps w). lia.
  - intros c fl w [->| ->]; cbn [handler].
    + pose proof (lb_VirtualMachineCreate (xmlTemplate fl) w). lia.
    + pose proof (lb_VirtualMachinesIps w). lia.
  - intros fl w act inact e1 e2 h1 h2 A I. cbn [handler].
    exact (lb_VirtualMachinesStateAll w act inact e1 e2 h1 h2 A I).
  - intros vm w w' i. rewrite GetVirtualMachineStateInfo_run. split.
    + destruct (lv_LookupDomainByName P vm (hyp w)) as [[d e1] h1] eqn:K.
      destruct d as [d|]; cbn zeta; [|discriminate].
      destruct (lv_GetInfo P d h1) as [[di e2] h2] eqn:G.
      destruct di as [di|]; [|discriminate].
      intros E. inversion E. subst. exists d, di, e1, e2, h1, h2.
      split; [reflexivity|]. split; [exact G|]. split; reflexivity.
    + intros (d & di & e1 & e2 & h1 & h2 & K & G & -> & ->).
      rewrite K. cbn zeta. rewrite G. reflexivity.
Qed.

End Claims.

(** ** The scenarios, run on the small hypervisor *)

Lemma success_exits_error_continues_witness :
  exists w' : World,
    main Sim.platform create_no_such_file (start Sim.host) = Exited 0 w'
    /\ stdout w'
       = (without_quotes "open /no/such/file: no such file or directory" ++ newline)
           ++ (without_quotes "XML error: failed to parse xml document" ++ newline)
           ++ "null".
Proof.
  destruct (success_exits_error_continues Sim.platform) as (_ & _ & _ & _ & _ & _ & H).
  apply (H create_no_such_file Sim.host Sim.host Sim.host Sim.host "" _ _ None);
    reflexivity.
Defined.

(** The counterexample to C2 as stated: the template [/no/such/file] cannot
    be read, and yet the run ends in the success report of [hret], which
    writes [null] after the two error lines and leaves with status 0. *)
Lemma create_unreadable_template_counterexample :
  os_ReadFile Sim.platform "/no/such/file" Sim.host
  = (("", Some "open /no/such/file: no such file or directory"), Sim.host)
  /\ success_reported (main Sim.platform create_no_such_file (start Sim.host))
  /\ stdout (final_world (main Sim.platform create_no_such_file (start Sim.host)))
     = "open /no/such/file: no such file or directory" ++ newline
         ++ "XML error: failed to parse xml document" ++ newline ++ "null".
Proof.
  split; [reflexivity|]. split; [|reflexivity].
  eexists. reflexivity.
Qed.

Lemma create_unreadable_template_goes_on_witness :
  exists w' : World,
    main Sim.platform create_no_such_file (start Sim.host) = Exited 0 w'
    /\ stdout w'
       = (without_quotes "open /no/such/file: no such file or directory" ++ newline)
           ++ error_line (Some "XML error: failed to parse xml document")
           ++ error_line (snd (json_MarshalDomain Sim.platform None))
           ++ fst (json_MarshalDomain Sim.platform None)
    /\ calls w' = [CNewConnect "qemu:///system"; CReadFile "/no/such/file";
                   CDomainDefineXML ""]
    /\ success_reported (main Sim.platform create_no_such_file (start Sim.host)).
Proof.
  apply (create_unreadable_template_goes_on Sim.platform create_no_such_file
           Sim.host Sim.host Sim.host Sim.host "" _ _ None);
    reflexivity.
Defined.

(** The counterexample to C3 as stated: 8 is none of the known codes, and
    the status returned for a machine in that state is the zero value of
    the field, not a marker. *)
Lemma unmapped_state_counterexample :
  ~ In 8 known_states
  /\ exists (i : VirtualMachineStateInfo) (w' : World),
      GetVirtualMachineStateInfo Sim.platform "odd" online = Return i w'
      /\ State i = zero_status
      /\ State i <> "unknown".
Proof.
  split.
  - cbn. intros H. repeat (destruct H as [H|H]; [discriminate|]). exact H.
  - eexists. eexists. split; [reflexivity|]. split; [reflexivity|discriminate].
Qed.

Lemma state_translation_witness :
  translate_state 8 = zero_status
  /\ exists (i : VirtualMachineStateInfo) (w' : World),
      GetVirtualMachineStateInfo Sim.platform "archived" online = Return i w'
      /\ State i = translate_state DOMAIN_SHUTOFF.
Proof.
  destruct (state_translation Sim.platform) as (_ & U & G). split.
  - apply U. cbn. intros H. repeat (destruct H as [H|H]; [discriminate|]). exact H.
  - apply (G "archived" online "archived" None None Sim.host Sim.host
             (Sim.info Sim.archived)); reflexivity.
Defined.

Lemma first_set_flag_runs_witness :
  main Sim.platform no_flags (start Sim.host)
  = Return tt {| stdout := ""; stderr := [];
                 calls := [CNewConnect "qemu:///system"; CClose];
                 hyp := Sim.host |}
  /\ exit_status (main Sim.platform no_flags (start Sim.host)) = 0.
Proof.
  destruct (first_set_flag_runs Sim.platform no_flags) as (_ & _ & _ & _ & _ & H).
  apply (H Sim.host Sim.host); [reflexivity|]. intros c. destruct c; reflexivity.
Defined.

Lemma state_of_testbox_witness :
  exists w' : World,
    main Sim.platform state_testbox (start Sim.host) = Exited 0 w'
    /\ stdout w'
       = dq "{'State':'running','MaxMemoryBytes':4194304,'MemoryBytes':2097152,'CpuTime':500,'CpuCount':2}"
    /\ exit_status (main Sim.platform state_testbox (start Sim.host)) = 0.
Proof.
  apply (state_of_testbox Sim.platform state_testbox Sim.host Sim.host Sim.host Sim.host
           "testbox"); reflexivity.
Defined.

Lemma memory_in_bytes_witness :
  exists (i : VirtualMachineStateInfo) (w' : World),
    GetVirtualMachineStateInfo Sim.platform "testbox" online = Return i w'
    /\ MemoryBytes i = (2048 * 1024) mod 2 ^ 64
    /\ MaxMemoryBytes i = (4096 * 1024) mod 2 ^ 64
    /\ (2048 * 1024 < 2 ^ 64 -> MemoryBytes i = 2048 * 1024)
    /\ (4096 * 1024 < 2 ^ 64 -> MaxMemoryBytes i = 4096 * 1024).
Proof.
  apply (memory_in_bytes Sim.platform "testbox" online "testbox" None None
           Sim.host Sim.host (Sim.info Sim.testbox));
    first [reflexivity | cbn; lia].
Defined.


(** The counterexample to C8 as stated: on a host with three machines, one
    invocation of the show-all handler looks three domains up by name. *)
Lemma show_all_lookups_counterexample :
  lookups (final_world (handler Sim.platform CmdShowAll show_all online))
  = 3%nat
  /\ ~ (lookups (final_world (handler Sim.platform CmdShowAll show_all online))
        <= lookups online + 1)%nat.
Proof.
  split; [reflexivity|]. intros H. vm_compute in H. lia.
Qed.

Lemma lookups_per_handler_witness :
  (lookups (final_world (handler Sim.platform CmdShowAll show_all online))
   <= lookups online + 2 + 1)%nat.
Proof.
  destruct (lookups_per_handler Sim.platform) as (_ & _ & H & _).
  apply (H show_all online ["testbox"; "odd"] ["archived"] None None
           Sim.host Sim.host); reflexivity.
Defined.

(** The counterexample to C10 as stated: with [--create --delete] and no
    [--vm], the delete flag is set and names a machine, and yet the run makes
    no lookup at all: the switch takes create, which reads the template. *)
Lemma masked_delete_counterexample :
  flag_set create_and_delete CmdDelete = true
  /\ requires_vm CmdDelete = true
  /\ vm create_and_delete = ""
  /\ calls (final_world (main Sim.platform create_and_delete (start Sim.host)))
     = [CNewConnect "qemu:///system"; CReadFile ""; CDomainDefineXML ""]
  /\ lookups (final_world (main Sim.platform create_and_delete (start Sim.host)))
     = 0%nat.
Proof. repeat split. Qed.

Lemma vm_flag_without_name_witness :
  main Sim.platform delete_unnamed (start Sim.host)
  = Panicked
      {| stdout := error_line (Some (Sim.not_found "")); stderr := [];
         calls := [CNewConnect "qemu:///system"; CLookupDomainByName ""; CClose];
         hyp := Sim.host |}.
Proof.
  exact (proj2 (vm_flag_without_name Sim.platform delete_unnamed CmdDelete
                  Sim.host Sim.host Sim.host None (Some (Sim.not_found ""))
                  eq_refl eq_refl eq_refl eq_refl eq_refl)).
Defined.

(** * Further properties of the program *)

Section Further.

Context {Hyp Domain : Type}.
Variable P : Platform Hyp Domain.

Local Abbreviation World := (@World Hyp Domain).
Local Abbreviation Go := (@Go Hyp Domain).
Local Abbreviation Result := (@Result Hyp Domain).
Local Abbreviation Call := (@Call Domain).

(** ** The discipline of the handlers *)

Lemma closes_printed (s : string) (w : World) : closes (printed s w) = closes w.
Proof. reflexivity. Qed.

Lemma closes_called (c : Call) (h : Hyp) (w : World) :
  closes (called c h w) = (closes w + if is_close c then 1 else 0)%nat.
Proof.
  unfold closes, called. cbn [calls].
  rewrite filter_app, length_app. cbn [filter]. now destruct (is_close c).
Qed.

Lemma tame_ret {A} (a : A) : tame (ret a : Go A).
Proof.
  intros w. cbn. repeat split; try discriminate.
  - exists "". now rewrite append_nil_r.
  - exists []. now rewrite app_nil_r.
Qed.

Lemma tame_panic {A} : tame (panic : Go A).
Proof.
  intros w. cbn. repeat split; try discriminate.
  - exists "". now rewrite append_nil_r.
  - exists []. now rewrite app_nil_r.
Qed.

Lemma tame_Print (s : string) : tame (Print s : Go unit).
Proof.
  intros w. cbn. repeat split; try discriminate.
  - now exists s.
  - exists []. now rewrite app_nil_r.
Qed.

Lemma tame_bind {A B} (m : Go A) (f : A -> Go B) :
  tame m -> (forall a, tame (f a)) -> tame (bind m f).
Proof.
  intros Hm Hf w. unfold bind.
  destruct (Hm w) as (S1 & C1 & [o1 O1] & [c1 K1] & E1).
  destruct (m w) as [a w1|c w1|w1]; cbn [final_world] in *.
  - destruct (Hf a w1) as (S2 & C2 & [o2 O2] & [c2 K2] & E2).
    split; [congruence|]. split; [congruence|]. split; [|split].
    + exists (o1 ++ o2). now rewrite O2, O1, append_assoc.
    + exists (c1 ++ c2)%list. now rewrite K2, K1, app_assoc.
    + exact E2.
  - split; [exact S1|]. split; [exact C1|]. split; [now exists o1|].
    split; [now exists c1|].
    intros c' w' E. inversion E. subst. exact (E1 c' w' eq_refl).
  - split; [exact S1|]. split; [exact C1|]. split; [now exists o1|].
    split; [now exists c1|]. discriminate.
Qed.

Lemma tame_invoke {A} (c : Call) (f : Hyp -> A * Hyp) :
  is_close c = false -> tame (invoke c f).
Proof.
  intros N w. rewrite invoke_run. cbn [final_world].
  rewrite closes_called, N. cbn [called stderr stdout calls].
  split; [reflexivity|]. split; [lia|]. split; [|split].
  - exists "". now rewrite append_nil_r.
  - now exists [c].
  - discriminate.
Qed.

Lemma tame_herr (e : option error) : tame (herr e : Go unit).
Proof. destruct e; [apply tame_Print | apply tame_ret]. Qed.

Lemma tame_exit_0 {A} : tame (os_Exit 0 : Go A).
Proof.
  intros w. cbn. repeat split.
  - exists "". now rewrite append_nil_r.
  - exists []. now rewrite app_nil_r.
  - intros c w' E. now inversion E.
Qed.

Lemma tame_hok (message : string) : tame (hok message : Go unit).
Proof. apply tame_bind; [apply tame_Print | intro; apply tame_exit_0]. Qed.

Lemma tame_hret (i : any) : tame (hret P i).
Proof.
  unfold hret. destruct (json_Marshal P i) as [s e].
  apply tame_bind; [apply tame_herr|]. intros _.
  apply tame_bind; [apply tame_Print | intro; apply tame_exit_0].
Qed.

Lemma tame_deref {A} (p : option A) : tame (deref p : Go A).
Proof. destruct p; [apply tame_ret | apply tame_panic]. Qed.

Lemma tame_range {A S} (l : list A) (body : S -> A -> Go S) :
  (forall s x, tame (body s x)) -> forall s, tame (range l body s).
Proof.
  intros Hb. induction l as [|x l IH]; intros s; cbn [range].
  - apply tame_ret.
  - apply tame_bind; [apply Hb | apply IH].
Qed.

Create HintDb tame.
#[local] Hint Resolve tame_ret tame_panic tame_Print tame_herr tame_hok tame_hret
  tame_deref tame_exit_0 : tame.

(** One step of the check: a known leaf, a call that is not [Close], a
    sequence, a loop or a case analysis on an answer. *)
Ltac tame_step :=
  match goal with
  | |- forall _, _ => intro
  | |- tame (match ?x with (_, _) => _ end) => destruct x
  | |- tame (bind _ _) => apply tame_bind
  | |- tame (range _ _ _) => apply tame_range
  | |- tame (invoke _ _) => apply tame_invoke; reflexivity
  | |- tame _ => solve [auto with tame]
  end.

Lemma tame_lifecycle (vm : string) (op : DomainOp) (message : string) :
  tame (lifecycle P vm op message).
Proof. unfold lifecycle, LookupDomainByName, method. repeat tame_step. Qed.

Lemma tame_GetVirtualMachineStateInfo (vm : string) :
  tame (GetVirtualMachineStateInfo P vm).
Proof.
  unfold GetVirtualMachineStateInfo, LookupDomainByName, GetInfo. repeat tame_step.
Qed.

Lemma tame_handler (c : Command) (fl : Flags) : tame (handler P c fl).
Proof.
  destruct (lifecycle_of c (vm fl)) as [[op message]|] eqn:L.
  - rewrite (handler_lifecycle P c fl op message L). apply tame_lifecycle.
  - destruct c; try discriminate; cbn [handler].
    + unfold VirtualMachineState.
      apply tame_bind; [apply tame_GetVirtualMachineStateInfo | intro; apply tame_hret].
    + unfold VirtualMachineCreate, ReadFile, DomainDefineXML. repeat tame_step.
    + unfold VirtualMachinesIps, ListAllDomains, GetName, ListAllInterfaceAddresses,
        method.
      repeat tame_step.
    + unfold VirtualMachinesStateAll, PrintVirtualMachinesStatus, ListAllDomains,
        GetName.
      repeat first [apply tame_GetVirtualMachineStateInfo | tame_step].
Qed.

Lemma tame_dispatch (fl : Flags) : tame (dispatch P fl).
Proof.
  rewrite dispatch_selected. destruct (selected fl); [apply tame_handler | apply tame_ret].
Qed.

Lemma main_unconnected (fl : Flags) (h h0 : Hyp) (e : error) :
  lv_NewConnect P "qemu:///system" h = (Some e, h0) ->
  main P fl (start h)
  = Exited 1 {| stdout := ""; stderr := ["failed to connect: " ++ e];
                calls := [CNewConnect "qemu:///system"]; hyp := h0 |}.
Proof.
  intros E.
  unfold main, LibvirtInit, NewConnect, bind, invoke. cbn [start hyp].
  rewrite E. reflexivity.
Qed.

Lemma Close_run (w : World) :
  Close P w = Return tt (called CClose (lv_Close P (hyp w)) w).
Proof. reflexivity. Qed.

(** ** Connection, exit status and the deferred close *)

(** X1: when the connection cannot be established, whatever the flags, the
    process logs the failure, leaves with status 1 and has done nothing
    else: nothing is on standard output, the only call is the connection
    attempt, and the connection is not closed. *)
Theorem connection_failure_is_fatal (fl : Flags) (h h0 : Hyp) (e : error) :
  lv_NewConnect P "qemu:///system" h = (Some e, h0) ->
  main P fl (start h)
  = Exited 1 {| stdout := ""; stderr := ["failed to connect: " ++ e];
                calls := [CNewConnect "qemu:///system"]; hyp := h0 |}
  /\ exit_status (main P fl (start h)) = 1
  /\ closes (final_world (main P fl (start h))) = 0%nat.
Proof.
  intros E. rewrite (main_unconnected fl h h0 e E). repeat split.
Qed.

(** The three ways a connected run ends. *)
Lemma main_connected_cases (fl : Flags) (h h0 : Hyp) :
  lv_NewConnect P "qemu:///system" h = (None, h0) ->
  (exists w', dispatch P fl (connected h0) = Return tt w'
              /\ main P fl (start h)
                 = Return tt (called CClose (lv_Close P (hyp w')) w'))
  \/ (exists w', dispatch P fl (connected h0) = Exited 0 w'
                 /\ main P fl (start h) = Exited 0 w')
  \/ (exists w', dispatch P fl (connected h0) = Panicked w'
                 /\ main P fl (start h)
                    = Panicked (called CClose (lv_Close P (hyp w')) w')).
Proof.
  intros C. rewrite (main_connected P fl h h0 C). unfold defer.
  destruct (tame_dispatch fl (connected h0)) as (_ & _ & _ & _ & X).
  destruct (dispatch P fl (connected h0)) as [[] w'|c w'|w'].
  - left. exists w'. split; reflexivity.
  - right. left. exists w'. rewrite (X c w' eq_refl). split; reflexivity.
  - right. right. exists w'. split; reflexivity.
Qed.

(** X3: the deferred close runs exactly in the runs that do not leave
    through [os.Exit]: the connection is closed once when [main] returns or
    panics, and not at all when a success report (or the fatal log) ends the
    process. *)
Theorem close_is_skipped_by_exit (fl : Flags) (h : Hyp) :
  closes (final_world (main P fl (start h)))
  = match main P fl (start h) with
    | Exited _ _ => 0%nat
    | _ => 1%nat
    end.
Proof.
  destruct (lv_NewConnect P "qemu:///system" h) as [[e|] h0] eqn:C.
  - rewrite (main_unconnected fl h h0 e C). reflexivity.
  - destruct (tame_dispatch fl (connected h0)) as (_ & K & _).
    destruct (main_connected_cases fl h h0 C)
      as [(w' & D & ->)|[(w' & D & ->)|(w' & D & ->)]];
      rewrite D in K; cbn [final_world] in *.
    + rewrite closes_called, K. reflexivity.
    + rewrite K. reflexivity.
    + rewrite closes_called, K. reflexivity.
Qed.

(** X4: whatever the answers of the hypervisor, a handler hands nothing to
    the logger, does not close the connection, only appends to standard
    output and to the calls made, and leaves the process, if it does, with
    status 0. *)
Theorem handler_discipline (c : Command) (fl : Flags) (w : World) :
  stderr (final_world (handler P c fl w)) = stderr w
  /\ closes (final_world (handler P c fl w)) = closes w
  /\ (exists out : string, stdout (final_world (handler P c fl w)) = stdout w ++ out)
  /\ (exists cs : list Call,
         calls (final_world (handler P c fl w)) = (calls w ++ cs)%list)
  /\ (forall (code : Z) (w' : World), handler P c fl w = Exited code w' -> code = 0).
Proof. exact (tame_handler c fl w). Qed.

(** ** The lifecycle handlers *)

(** X5: each of the eight lifecycle commands, once the domain is found,
    makes exactly one call on it, the one that belongs to the command, and
    nothing else after the lookup by the name given; and whether that call
    succeeds or not the ok-object is written and the process leaves with
    status 0: a refused operation shows as an error line before the
    confirmation, not in its place. *)
Theorem lifecycle_command_runs
        (fl : Flags) (c : Command) (op : DomainOp) (message : string)
        (h h0 h1 h2 : Hyp) (d : Domain) (e1 e2 : option error) :
  selected fl = Some c ->
  lifecycle_of c (vm fl) = Some (op, message) ->
  lv_NewConnect P "qemu:///system" h = (None, h0) ->
  lv_LookupDomainByName P (vm fl) h0 = ((Some d, e1), h1) ->
  lv_DomainOp P op d h1 = (e2, h2) ->
  main P fl (start h)
  = Exited 0
      {| stdout := error_line e1 ++ error_line e2
                     ++ dq "{'ok':'" ++ without_quotes message ++ dq "'}";
         stderr := [];
         calls := [CNewConnect "qemu:///system"; CLookupDomainByName (vm fl);
                   CDomainOp op d];
         hyp := h2 |}.
Proof.
  intros S L C K O.
  rewrite (main_lifecycle P fl c op message h h0 h1 h2 d e1 e2 S L C K O).
  unfold printed, called, connected, start. cbn [stdout stderr calls hyp app append].
  rewrite ok_payload_shape, ?append_assoc. reflexivity.
Qed.

(** X6: when the lookup of a command that names a machine answers with no
    domain, the error is reported and the handler then calls a method on the
    nil handle: the run panics, the deferred close runs, the exit status is
    2 and no success report is written. *)
Theorem vm_lookup_failure_crashes
        (fl : Flags) (c : Command) (h h0 h1 : Hyp) (e1 : option error) :
  selected fl = Some c ->
  requires_vm c = true ->
  lv_NewConnect P "qemu:///system" h = (None, h0) ->
  lv_LookupDomainByName P (vm fl) h0 = ((None, e1), h1) ->
  main P fl (start h)
  = Panicked
      {| stdout := error_line e1; stderr := [];
         calls := [CNewConnect "qemu:///system"; CLookupDomainByName (vm fl); CClose];
         hyp := lv_Close P h1 |}
  /\ exit_status (main P fl (start h)) = 2
  /\ ~ success_reported (main P fl (start h)).
Proof.
  intros S R C K.
  assert (E : main P fl (start h)
              = Panicked
                  {| stdout := error_line e1; stderr := [];
                     calls := [CNewConnect "qemu:///system";
                               CLookupDomainByName (vm fl); CClose];
                     hyp := lv_Close P h1 |}).
  { rewrite (main_connected P fl h h0 C), dispatch_selected, S. unfold defer.
    destruct (lifecycle_of c (vm fl)) as [[op message]|] eqn:L.
    - rewrite (handler_lifecycle P c fl op message L), lifecycle_run.
      cbn [connected called hyp]. rewrite K. reflexivity.
    - destruct c; try discriminate. cbn [handler].
      unfold VirtualMachineState, bind. rewrite GetVirtualMachineStateInfo_run.
      cbn [connected called hyp]. rewrite K. reflexivity. }
  rewrite E. split; [reflexivity|]. split; [reflexivity|].
  intros [w' X]. discriminate X.
Qed.

(** ** The state query *)

(** X7: when the domain is found but [GetInfo] answers with no info, the
    state query reports the error and then reads a field of the nil info:
    the run panics after the error lines, the deferred close runs, the exit
    status is 2 and no document is written. *)
Theorem state_info_failure_crashes
        (fl : Flags) (h h0 h1 h2 : Hyp) (d : Domain) (e1 e2 : option error) :
  virtualMachineState fl = true ->
  lv_NewConnect P "qemu:///system" h = (None, h0) ->
  lv_LookupDomainByName P (vm fl) h0 = ((Some d, e1), h1) ->
  lv_GetInfo P d h1 = ((None, e2), h2) ->
  main P fl (start h)
  = Panicked
      {| stdout := error_line e1 ++ error_line e2; stderr := [];
         calls := [CNewConnect "qemu:///system"; CLookupDomainByName (vm fl);
                   CGetInfo d; CClose];
         hyp := lv_Close P h2 |}
  /\ exit_status (main P fl (start h)) = 2.
Proof.
  intros S C K G.
  assert (E : main P fl (start h)
              = Panicked
                  {| stdout := error_line e1 ++ error_line e2; stderr := [];
                     calls := [CNewConnect "qemu:///system";
                               CLookupDomainByName (vm fl); CGetInfo d; CClose];
                     hyp := lv_Close P h2 |}).
  { rewrite (main_connected P fl h h0 C). unfold dispatch. rewrite S.
    unfold defer, VirtualMachineState, bind. rewrite GetVirtualMachineStateInfo_run.
    cbn [connected called hyp]. rewrite K. cbn zeta. rewrite G. reflexivity. }
  rewrite E. split; reflexivity.
Qed.

(** X8: for every info the hypervisor answers, the state query writes one
    document, after the error lines of the lookup and of the query if there
    are any: the object of the five fields State, MaxMemoryBytes,
    MemoryBytes, CpuTime and CpuCount, in that order, holding the translated
    status, the two memories in bytes and the two counters as they came; the
    serialisation of a state info never fails. *)
Theorem state_query_document
        (fl : Flags) (h h0 h1 h2 : Hyp) (d : Domain) (e1 e2 : option error)
        (di : DomainInfo) :
  virtualMachineState fl = true ->
  lv_NewConnect P "qemu:///system" h = (None, h0) ->
  lv_LookupDomainByName P (vm fl) h0 = ((Some d, e1), h1) ->
  lv_GetInfo P d h1 = ((Some di, e2), h2) ->
  main P fl (start h)
  = Exited 0
      {| stdout :=
           error_line e1 ++ error_line e2
             ++ dq "{'State':'" ++ translate_state (di_State di)
             ++ dq "','MaxMemoryBytes':" ++ itoa ((di_MaxMem di * 1024) mod 2 ^ 64)
             ++ dq ",'MemoryBytes':" ++ itoa ((di_Memory di * 1024) mod 2 ^ 64)
             ++ dq ",'CpuTime':" ++ itoa (di_CpuTime di)
             ++ dq ",'CpuCount':" ++ itoa (di_NrVirtCpu di) ++ "}";
         stderr := [];
         calls := [CNewConnect "qemu:///system"; CLookupDomainByName (vm fl);
                   CGetInfo d];
         hyp := h2 |}
  /\ forall i : VirtualMachineStateInfo, snd (json_Marshal P (AnyStateInfo i)) = None.
Proof.
  intros S C K G. split; [|reflexivity].
  rewrite (main_connected P fl h h0 C). unfold dispatch. rewrite S.
  apply defer_Exited. unfold VirtualMachineState.
  erewrite bind_Return
    by (rewrite GetVirtualMachineStateInfo_run; cbn [connected called hyp];
        rewrite K; cbn zeta; rewrite G; reflexivity).
  rewrite hret_run. unfold printed, called, connected, start.
  cbn [stdout stderr calls hyp app json_Marshal fst snd error_line state_info_of
         State MaxMemoryBytes MemoryBytes CpuTime CpuCount].
  unfold json_key, json_string, uint64_mul. cbn [append dq Ascii.eqb Bool.eqb].
  f_equal. f_equal. rewrite ?append_assoc. cbn [append]. reflexivity.
Qed.

(** X10: the translation of the state codes loses nothing on the codes it
    knows: the status is the zero value exactly for the codes outside the
    eight, and two known codes with the same status are the same code. *)
Theorem translate_state_is_faithful :
  (forall s : DomainState, translate_state s = zero_status <-> ~ In s known_states)
  /\ (forall s1 s2 : DomainState,
         In s1 known_states ->
         translate_state s1 = translate_state s2 -> s1 = s2).
Proof.
  assert (Z0 : forall s, ~ In s known_states -> translate_state s = zero_status).
  { intros s N. unfold translate_state.
    repeat match goal with
           | |- context [?a =? ?b] =>
               destruct (Z.eqb_spec a b) as [->|_];
               [exfalso; apply N; unfold known_states; cbn; tauto|]
           end.
    reflexivity. }
  assert (NZ : forall s, In s known_states -> translate_state s <> zero_status).
  { intros s I.
    repeat (destruct I as [<-|I]; [discriminate|]). destruct I. }
  split.
  - intros s. split; [intros E I; exact (NZ s I E) | apply Z0].
  - intros s1 s2 I1 E.
    assert (I2 : In s2 known_states).
    { destruct (in_dec Z.eq_dec s2 known_states) as [I|N]; [exact I|].
      exfalso. apply (NZ s1 I1). rewrite E. now apply Z0. }
    repeat (destruct I1 as [<-|I1];
            [repeat (destruct I2 as [<-|I2]; [first [reflexivity|discriminate E]|]);
             destruct I2|]).
    destruct I1.
Qed.

(** ** Create *)

(** X11: the create handler hands to [DomainDefineXML] exactly the bytes
    [ReadFile] returned for the path of [--xml-template], and when both
    succeed it writes the serialised domain reference alone and leaves with
    status 0, after these two calls and no other. *)
Theorem create_defines_the_template
        (fl : Flags) (h h0 h1 h2 : Hyp) (xml : string) (d : option Domain) :
  selected fl = Some CmdCreate ->
  lv_NewConnect P "qemu:///system" h = (None, h0) ->
  os_ReadFile P (xmlTemplate fl) h0 = ((xml, None), h1) ->
  lv_DomainDefineXML P xml h1 = ((d, None), h2) ->
  main P fl (start h)
  = Exited 0
      {| stdout := error_line (snd (json_MarshalDomain P d))
                     ++ fst (json_MarshalDomain P d);
         stderr := [];
         calls := [CNewConnect "qemu:///system"; CReadFile (xmlTemplate fl);
                   CDomainDefineXML xml];
         hyp := h2 |}.
Proof.
  intros S C R D.
  rewrite (main_create P fl h h0 h1 h2 xml None None d S C R D).
  reflexivity.
Qed.

(** ** The enumeration handlers *)

(** A loop whose body always returns and makes the calls [per x] for the
    element [x] returns, having made these calls for each element in
    order. *)
Lemma range_calls {A S} (per : A -> list Call) (body : S -> A -> Go S) :
  (forall s x w, exists s' w',
      body s x w = Return s' w' /\ calls w' = (calls w ++ per x)%list) ->
  forall l s w, exists s' w',
      range l body s w = Return s' w'
      /\ calls w' = (calls w ++ flat_map per l)%list.
Proof.
  intros Hb. induction l as [|x l IH]; intros s w; cbn [range flat_map].
  - exists s, w. split; [reflexivity | now rewrite app_nil_r].
  - destruct (Hb s x w) as (s1 & w1 & B & K1).
    destruct (IH s1 w1) as (s2 & w2 & R & K2).
    exists s2, w2. split.
    + now rewrite (bind_Return _ _ _ _ _ B).
    + now rewrite K2, K1, app_assoc.
Qed.

(** The calls of the ips handler, whatever the hypervisor answers. *)
Lemma VirtualMachinesIps_calls
        (w : World) (AllDomains : list Domain) (e : option error) (h1 : Hyp) :
  lv_ListAllDomains P CONNECT_LIST_DOMAINS_RUNNING (hyp w) = ((AllDomains, e), h1) ->
  exists w' : World,
    VirtualMachinesIps P w = Return tt w'
    /\ calls w'
       = (calls w ++ CListAllDomains CONNECT_LIST_DOMAINS_RUNNING
            :: flat_map ips_calls AllDomains)%list.
Proof.
  intros L. unfold VirtualMachinesIps, ListAllDomains.
  rewrite (bind_invoke _ _ _ _ _ _ L), bind_herr.
  match goal with
  | |- context [range AllDomains ?b ?s0] =>
      assert (B : forall s x w0, exists s' w',
                 b s x w0 = Return s' w' /\ calls w' = (calls w0 ++ ips_calls x)%list);
      [|destruct (range_calls ips_calls b B AllDomains s0
                    (printed (error_line e)
                       (called (CListAllDomains CONNECT_LIST_DOMAINS_RUNNING) h1 w)))
          as (s' & w' & R & K)]
  end.
  - intros s x w0. unfold GetName, ListAllInterfaceAddresses.
    destruct (lv_GetName P x (hyp w0)) as [[n e0] g1] eqn:G.
    rewrite (bind_invoke _ _ _ _ _ _ G), bind_herr.
    destruct (lv_ListAllInterfaceAddresses P x DOMAIN_INTERFACE_ADDRESSES_SRC_AGENT g1)
      as [[ifs e3] g2] eqn:I.
    rewrite (bind_invoke _ _ _ _ (ifs, e3) g2) by exact I.
    rewrite bind_herr, method_Some.
    destruct (lv_DomainOp P Free x g2) as [e4 g3] eqn:F.
    rewrite (bind_invoke _ _ _ _ e4 g3) by exact F.
    eexists. eexists. split; [reflexivity|].
    cbn [ret printed called calls ips_calls]. now rewrite <- !app_assoc.
  - eexists. split.
    + rewrite (bind_Return _ _ _ _ _ R). reflexivity.
    + cbn [Print calls]. rewrite K. cbn [printed called calls].
      now rewrite <- app_assoc.
Qed.

(** X12: whatever the hypervisor answers, the ips command neither leaves
    the process through a report nor panics: [main] returns with status 0,
    having asked for the running domains and then, for each listed domain
    in order, for its name and for its agent-sourced interface addresses,
    having freed it, and having closed the connection at the end; it makes
    no other call. *)
Theorem ips_frees_every_domain
        (fl : Flags) (h h0 h1 : Hyp) (AllDomains : list Domain) (e : option error) :
  selected fl = Some CmdIps ->
  lv_NewConnect P "qemu:///system" h = (None, h0) ->
  lv_ListAllDomains P CONNECT_LIST_DOMAINS_RUNNING h0 = ((AllDomains, e), h1) ->
  exists w' : World,
    main P fl (start h) = Return tt w'
    /\ calls w'
       = ([CNewConnect "qemu:///system"; CListAllDomains CONNECT_LIST_DOMAINS_RUNNING]
            ++ flat_map ips_calls AllDomains ++ [CClose])%list
    /\ exit_status (main P fl (start h)) = 0.
Proof.
  intros S C L.
  destruct (VirtualMachinesIps_calls (connected h0) AllDomains e h1 L) as (w1 & R & K).
  rewrite (main_connected P fl h h0 C), dispatch_selected, S. cbn [handler].
  unfold defer. rewrite R, Close_run.
  eexists. split; [reflexivity|]. split; [|reflexivity].
  cbn [called calls]. rewrite K. reflexivity.
Qed.

(** The rows [PrintVirtualMachinesStatus] prints when every domain has a
    name, a handle under that name and an info, and no question changes the
    hypervisor. *)
Lemma PrintVirtualMachinesStatus_rows
      (h0 : Hyp) (nm : Domain -> string) (hd : Domain -> Domain)
      (inf : Domain -> DomainInfo) (l : list Domain) :
  (forall d, In d l ->
     lv_GetName P d h0 = ((nm d, None), h0)
     /\ lv_LookupDomainByName P (nm d) h0 = ((Some (hd d), None), h0)
     /\ lv_GetInfo P (hd d) h0 = ((Some (inf d), None), h0)) ->
  forall w : World,
    hyp w = h0 ->
    PrintVirtualMachinesStatus P l w
    = Return tt
        {| stdout := stdout w
                       ++ table (map (fun d => status_row P (nm d)
                                                 (translate_state (di_State (inf d)))) l);
           stderr := stderr w;
           calls := calls w ++ flat_map (fun d => status_calls d (nm d) (hd d)) l;
           hyp := h0 |}.
Proof.
  unfold PrintVirtualMachinesStatus.
  induction l as [|d l IH]; intros Hl w Hw.
  - cbn. rewrite append_nil_r, app_nil_r. destruct w. cbn in Hw. now subst.
  - cbn [range map flat_map table fold_right].
    destruct (Hl d (or_introl eq_refl)) as (N & K & G).
    assert (B : forall k : unit -> Go unit,
               bind (bind (GetName P d)
                       (fun x => let (DomainName, err) := x in
                                 herr err ;;
                                 VmState <- GetVirtualMachineStateInfo P DomainName ;;
                                 Print (pad_right P 30 DomainName ++ " "
                                          ++ pad_right P 15 (State VmState) ++ newline))) k w
               = k tt {| stdout := stdout w
                                     ++ status_row P (nm d)
                                          (translate_state (di_State (inf d)));
                         stderr := stderr w;
                         calls := calls w ++ status_calls d (nm d) (hd d);
                         hyp := h0 |}).
    { intros k. apply bind_Return. unfold GetName.
      rewrite (bind_invoke _ _ _ _ (nm d, None) h0) by (rewrite Hw; exact N).
      rewrite bind_herr.
      erewrite bind_Return
        by (rewrite GetVirtualMachineStateInfo_run; cbn [printed called hyp];
            rewrite K; cbn zeta; rewrite G; reflexivity).
      unfold Print, printed, called, status_row, status_calls.
      cbn [stdout stderr calls hyp error_line state_info_of State].
      rewrite !append_nil_r, <- !app_assoc. reflexivity. }
    rewrite B. rewrite IH; [|intros x I; apply Hl; now right|reflexivity].
    cbn [stdout stderr calls hyp]. now rewrite append_assoc, <- app_assoc.
Qed.

Lemma append_nil_l (a : string) : "" ++ a = a.
Proof. reflexivity. Qed.

Lemma table_app (r1 r2 : list string) : table (r1 ++ r2) = table r1 ++ table r2.
Proof.
  unfold table. induction r1 as [|r r1 IH]; cbn [app fold_right]; [reflexivity|].
  now rewrite IH, append_assoc.
Qed.

Lemma summary_line_eq (active inactive : nat) :
  ("There are " ++ itoa (Z.of_nat active + Z.of_nat inactive)
     ++ " domains: " ++ itoa (Z.of_nat active)
     ++ " active and " ++ itoa (Z.of_nat inactive) ++ " inactive") ++ newline
  = summary_line active inactive.
Proof. unfold summary_line. now rewrite !append_assoc. Qed.

(** X13: show-all on a hypervisor that answers every question and is not
    changed by them: the process writes the summary line with the total, the
    active and the inactive count, then one row per domain with its name
    padded to 30 and its translated status padded to 15, the active domains
    first and each list in the order it was enumerated; it then returns, so
    that the connection is closed and the exit status is 0. *)
Theorem show_all_table
        (fl : Flags) (h h0 : Hyp) (act inact : list Domain)
        (nm : Domain -> string) (hd : Domain -> Domain) (inf : Domain -> DomainInfo) :
  selected fl = Some CmdShowAll ->
  lv_NewConnect P "qemu:///system" h = (None, h0) ->
  lv_ListAllDomains P CONNECT_LIST_DOMAINS_ACTIVE h0 = ((act, None), h0) ->
  lv_ListAllDomains P CONNECT_LIST_DOMAINS_INACTIVE h0 = ((inact, None), h0) ->
  (forall d, In d (act ++ inact)%list ->
     lv_GetName P d h0 = ((nm d, None), h0)
     /\ lv_LookupDomainByName P (nm d) h0 = ((Some (hd d), None), h0)
     /\ lv_GetInfo P (hd d) h0 = ((Some (inf d), None), h0)) ->
  main P fl (start h)
  = Return tt
      {| stdout :=
           summary_line (length act) (length inact)
             ++ table (map (fun d => status_row P (nm d)
                                       (translate_state (di_State (inf d))))
                           (act ++ inact)%list);
         stderr := [];
         calls :=
           [CNewConnect "qemu:///system";
            CListAllDomains CONNECT_LIST_DOMAINS_ACTIVE;
            CListAllDomains CONNECT_LIST_DOMAINS_INACTIVE]
             ++ flat_map (fun d => status_calls d (nm d) (hd d)) (act ++ inact)%list
             ++ [CClose];
         hyp := lv_Close P h0 |}
  /\ exit_status (main P fl (start h)) = 0.
Proof.
  intros S C A I Hd.
  assert (E : dispatch P fl (connected h0)
              = Return tt
                  {| stdout :=
                       summary_line (length act) (length inact)
                         ++ table (map (fun d => status_row P (nm d)
                                                   (translate_state (di_State (inf d))))
                                       (act ++ inact)%list);
                     stderr := [];
                     calls :=
                       [CNewConnect "qemu:///system";
                        CListAllDomains CONNECT_LIST_DOMAINS_ACTIVE;
                        CListAllDomains CONNECT_LIST_DOMAINS_INACTIVE]
                         ++ flat_map (fun d => status_calls d (nm d) (hd d))
                              (act ++ inact)%list;
                     hyp := h0 |}).
  { rewrite dispatch_selected, S. cbn [handler].
    unfold VirtualMachinesStateAll, ListAllDomains.
    rewrite (bind_invoke _ _ _ _ (act, None) h0) by exact A.
    rewrite bind_herr.
    rewrite (bind_invoke _ _ _ _ (inact, None) h0) by exact I.
    rewrite bind_herr.
    unfold bind at 1. unfold Print at 1.
    erewrite bind_Return
      by (apply (PrintVirtualMachinesStatus_rows h0 nm hd inf act);
          [intros d X; apply Hd, in_or_app; now left | reflexivity]).
    rewrite (PrintVirtualMachinesStatus_rows h0 nm hd inf inact);
      [|intros d X; apply Hd, in_or_app; now right | reflexivity].
    unfold connected, start, printed, called.
    cbn [stdout stderr calls hyp error_line].
    f_equal. f_equal.
    - rewrite !append_nil_r, append_nil_l, summary_line_eq, map_app, table_app.
      now rewrite append_assoc.
    - rewrite flat_map_app. now rewrite <- !app_assoc. }
  rewrite (main_connected P fl h h0 C). unfold defer. rewrite E.
  rewrite Close_run. cbn [called stdout stderr calls hyp exit_status].
  split; reflexivity.
Qed.

Lemma write_addrs_eq (addrs : list DomainIPAddress) (out : string) :
  write_addrs P out addrs = out ++ address_list P addrs.
Proof.
  unfold write_addrs, address_list, table. revert out.
  induction addrs as [|a addrs IH]; intros out; cbn [fold_left map fold_right].
  - now rewrite append_nil_r.
  - now rewrite IH, !append_assoc.
Qed.

Lemma write_interfaces_eq (ifaces : list DomainInterface) (out : string) :
  write_interfaces P out ifaces = out ++ table (map (interface_line P) ifaces).
Proof.
  unfold write_interfaces, table. revert out.
  induction ifaces as [|i ifaces IH]; intros out; cbn [fold_left map fold_right].
  - now rewrite append_nil_r.
  - rewrite IH, write_addrs_eq. unfold interface_line.
    now rewrite !append_assoc.
Qed.

(** The text the loop of ips gathers when every domain has a name and a
    list of interfaces, and no question changes the hypervisor. *)
Lemma ips_loop_text
      (h0 : Hyp) (nm : Domain -> string) (ifs : Domain -> list DomainInterface)
      (l : list Domain) :
  (forall d, In d l ->
     lv_GetName P d h0 = ((nm d, None), h0)
     /\ lv_ListAllInterfaceAddresses P d DOMAIN_INTERFACE_ADDRESSES_SRC_AGENT h0
        = ((ifs d, None), h0)
     /\ snd (lv_DomainOp P Free d h0) = h0) ->
  forall (out : string) (w : World),
    hyp w = h0 ->
    range l
      (fun OutputString domain =>
         '(DomainName, err) <- GetName P domain ;;
         let OutputString := OutputString ++ "Domain - " ++ DomainName ++ ":" ++ newline in
         herr err ;;
         '(AllDomainInterfaces, err) <-
            ListAllInterfaceAddresses P domain DOMAIN_INTERFACE_ADDRESSES_SRC_AGENT ;;
         herr err ;;
         let OutputString := write_interfaces P OutputString AllDomainInterfaces in
         method P (Some domain) Free ;;
         ret OutputString)
      out w
    = Return (out ++ table (map (fun d => domain_block P (nm d) (ifs d)) l))
        {| stdout := stdout w; stderr := stderr w;
           calls := calls w ++ flat_map ips_calls l; hyp := h0 |}.
Proof.
  induction l as [|d l IH]; intros Hl out w Hw.
  - cbn. rewrite append_nil_r, app_nil_r. destruct w. cbn in Hw. now subst.
  - cbn [range map flat_map table fold_right].
    destruct (Hl d (or_introl eq_refl)) as (N & I & F).
    destruct (lv_DomainOp P Free d h0) as [fe fh] eqn:FE. cbn [snd] in F. subst fh.
    erewrite bind_Return.
    2:{ unfold GetName, ListAllInterfaceAddresses.
        rewrite (bind_invoke _ _ _ _ (nm d, None) h0) by (rewrite Hw; exact N).
        cbn zeta. rewrite bind_herr.
        rewrite (bind_invoke _ _ _ _ (ifs d, None) h0) by exact I.
        rewrite bind_herr, method_Some.
        rewrite (bind_invoke _ _ _ _ fe h0) by exact FE.
        reflexivity. }
    rewrite IH; [|intros x X; apply Hl; now right|reflexivity].
    unfold printed, called, ips_calls. cbn [stdout stderr calls hyp error_line].
    f_equal.
    + rewrite write_interfaces_eq. unfold domain_block, table.
      now rewrite !append_assoc.
    + f_equal.
      * now rewrite !append_nil_r.
      * now rewrite <- !app_assoc.
Qed.

Lemma plain_blocks
      (nm : Domain -> string) (ifs : Domain -> list DomainInterface) (l : list Domain) :
  (forall s : string, percent_free s -> fmt_Sprintf0 P s = s) ->
  (forall d i a, In d l -> In i (ifs d) -> In a (if_Addrs i) ->
                 percent_free (ip_Addr a)) ->
  map (fun d => domain_block P (nm d) (ifs d)) l
  = map (fun d => plain_domain_block (nm d) (ifs d)) l.
Proof.
  intros F A. apply map_ext_in. intros d Id.
  unfold domain_block, plain_domain_block.
  assert (M : map (interface_line P) (ifs d) = map plain_interface_line (ifs d)).
  { apply map_ext_in. intros i Ii.
    unfold interface_line, plain_interface_line, address_list, plain_address_list.
    assert (M2 : map (fun val => fmt_Sprintf0 P (ip_Addr val) ++ " ") (if_Addrs i)
                 = map (fun val => ip_Addr val ++ " ") (if_Addrs i)).
    { apply map_ext_in. intros a Ia. now rewrite (F _ (A d i a Id Ii Ia)). }
    now rewrite M2. }
  now rewrite M.
Qed.

(** X14: ips on a hypervisor that answers every question and is not
    changed by them, when no address holds a percent sign (an address is
    used as a format, and a format without a verb is written as it is):
    the process writes, in one piece at the end, the line with the number of
    running domains and then, for each domain in the order enumerated, the
    line of its name followed by one line per interface, which holds the
    name of the interface and its addresses, each address followed by a
    space; then [main] returns with status 0. *)
Theorem ips_text
        (fl : Flags) (h h0 : Hyp) (l : list Domain)
        (nm : Domain -> string) (ifs : Domain -> list DomainInterface) :
  selected fl = Some CmdIps ->
  lv_NewConnect P "qemu:///system" h = (None, h0) ->
  lv_ListAllDomains P CONNECT_LIST_DOMAINS_RUNNING h0 = ((l, None), h0) ->
  (forall d, In d l ->
     lv_GetName P d h0 = ((nm d, None), h0)
     /\ lv_ListAllInterfaceAddresses P d DOMAIN_INTERFACE_ADDRESSES_SRC_AGENT h0
        = ((ifs d, None), h0)
     /\ snd (lv_DomainOp P Free d h0) = h0) ->
  (forall s : string, percent_free s -> fmt_Sprintf0 P s = s) ->
  (forall d i a, In d l -> In i (ifs d) -> In a (if_Addrs i) ->
                 percent_free (ip_Addr a)) ->
  exists w' : World,
    main P fl (start h) = Return tt w'
    /\ stdout w'
       = running_line (length l)
           ++ table (map (fun d => plain_domain_block (nm d) (ifs d)) l)
    /\ exit_status (main P fl (start h)) = 0.
Proof.
  intros S C L Hl F A.
  rewrite (main_connected P fl h h0 C), dispatch_selected, S. cbn [handler].
  unfold defer, VirtualMachinesIps, ListAllDomains.
  rewrite (bind_invoke _ _ _ _ (l, None) h0) by exact L.
  rewrite bind_herr.
  erewrite bind_Return by (apply (ips_loop_text h0 nm ifs l Hl); reflexivity).
  unfold Print. rewrite Close_run.
  eexists. split; [reflexivity|]. split; [|reflexivity].
  unfold printed, called, connected, start, running_line.
  cbn [stdout stderr calls hyp error_line].
  rewrite (plain_blocks nm ifs l F A).
  rewrite !append_nil_r, append_nil_l. now rewrite !append_assoc.
Qed.

(** X15: a row of the table of show-all is never cut: it starts with the
    whole name; and when name and status are counted by their bytes (plain
    ASCII) and fit their columns, 30 and 15, the row is 47 bytes long, the
    status starting at byte 31. *)
Theorem status_row_layout (name : string) (status : VirtualMachineStatus) :
  (exists rest : string, status_row P name status = name ++ rest)
  /\ (utf8_RuneCount P name = String.length name ->
      utf8_RuneCount P status = String.length status ->
      (String.length name <= 30)%nat ->
      (String.length status <= 15)%nat ->
      String.length (status_row P name status) = 47%nat
      /\ exists gap rest : string,
          status_row P name status = name ++ gap ++ status ++ rest
          /\ String.length (name ++ gap) = 31%nat).
Proof.
  assert (LA : forall a b, String.length (a ++ b) = (String.length a + String.length b)%nat).
  { induction a as [|x a IH]; intros b; cbn; [reflexivity|]. now rewrite IH. }
  assert (LS : forall n, String.length (spaces n) = n).
  { induction n as [|n IH]; cbn; [reflexivity|]. now rewrite IH. }
  unfold status_row, pad_right. split.
  - eexists. rewrite !append_assoc. reflexivity.
  - intros -> -> Hn Hs. split.
    + rewrite !LA, !LS. cbn [String.length newline]. lia.
    + exists (spaces (30 - String.length name) ++ " ").
      eexists. split.
      * rewrite !append_assoc. reflexivity.
      * rewrite !LA, LS. cbn [String.length]. lia.
Qed.

End Further.

(** ** The further properties, run on the small hypervisor *)

Lemma connection_failure_is_fatal_witness :
  exit_status (main Sim.platform state_testbox (start unreachable_host)) = 1
  /\ closes (final_world (main Sim.platform state_testbox (start unreachable_host)))
     = 0%nat.
Proof.
  apply (connection_failure_is_fatal Sim.platform state_testbox unreachable_host
           unreachable_host "Failed to connect socket to '/var/run/libvirt/libvirt-sock'").
  reflexivity.
Defined.

Lemma handler_discipline_witness :
  stderr (final_world (handler Sim.platform CmdDelete delete_testbox online))
  = stderr online
  /\ closes (final_world (handler Sim.platform CmdDelete delete_testbox online))
     = closes online.
Proof.
  destruct (handler_discipline Sim.platform CmdDelete delete_testbox online)
    as (S & C & _).
  split; [exact S | exact C].
Defined.

Lemma lifecycle_command_runs_witness :
  main Sim.platform pause_testbox (start Sim.host)
  = Exited 0
      {| stdout := dq "{'ok':'testbox is paused'}";
         stderr := [];
         calls := [CNewConnect "qemu:///system"; CLookupDomainByName "testbox";
                   CDomainOp Suspend "testbox"];
         hyp := Sim.update_vm "testbox" (Sim.set_state DOMAIN_PAUSED) Sim.host |}.
Proof.
  apply (lifecycle_command_runs Sim.platform pause_testbox CmdPause Suspend
           "testbox is paused" Sim.host Sim.host Sim.host _ "testbox" None None);
    reflexivity.
Defined.

Lemma vm_lookup_failure_crashes_witness :
  exit_status (main Sim.platform start_missing (start Sim.host)) = 2
  /\ ~ success_reported (main Sim.platform start_missing (start Sim.host)).
Proof.
  apply (vm_lookup_failure_crashes Sim.platform start_missing CmdStart
           Sim.host Sim.host Sim.host (Some (Sim.not_found "missing")));
    reflexivity.
Defined.

Lemma state_info_failure_crashes_witness :
  exit_status (main mute_platform state_testbox (start Sim.host)) = 2.
Proof.
  apply (state_info_failure_crashes mute_platform state_testbox
           Sim.host Sim.host Sim.host Sim.host "testbox" None
           (Some "Requested operation is not valid"));
    reflexivity.
Defined.

Lemma state_query_document_witness :
  stdout (final_world (main Sim.platform state_testbox (start Sim.host)))
  = dq "{'State':'running','MaxMemoryBytes':4194304,'MemoryBytes':2097152,'CpuTime':500,'CpuCount':2}"
  /\ snd (json_Marshal Sim.platform
            (AnyStateInfo (state_info_of (Sim.info Sim.testbox)))) = None.
Proof.
  destruct (state_query_document Sim.platform state_testbox Sim.host Sim.host Sim.host
              Sim.host "testbox" None None (Sim.info Sim.testbox)
              eq_refl eq_refl eq_refl eq_refl) as [E M].
  split; [rewrite E; reflexivity | apply M].
Defined.

Lemma translate_state_is_faithful_witness :
  In DOMAIN_PAUSED known_states
  /\ translate_state DOMAIN_PAUSED = translate_state 3
  /\ DOMAIN_PAUSED = 3.
Proof.
  assert (I : In DOMAIN_PAUSED known_states) by (cbn; tauto).
  split; [exact I|]. split; [reflexivity|].
  exact (proj2 translate_state_is_faithful DOMAIN_PAUSED 3 I eq_refl).
Defined.

Lemma create_defines_the_template_witness :
  main Sim.platform create_from_template (start template_host)
  = Exited 0
      {| stdout := "{}"; stderr := [];
         calls := [CNewConnect "qemu:///system"; CReadFile "/etc/newbox.xml";
                   CDomainDefineXML "newbox"];
         hyp := snd (Sim.DomainDefineXML "newbox" template_host) |}.
Proof.
  apply (create_defines_the_template Sim.platform create_from_template
           template_host template_host template_host _ "newbox" (Some "newbox"));
    reflexivity.
Defined.

Lemma ips_frees_every_domain_witness :
  exists w' : World,
    main Sim.platform ips_only (start Sim.host) = Return tt w'
    /\ calls w'
       = ([CNewConnect "qemu:///system"; CListAllDomains CONNECT_LIST_DOMAINS_RUNNING]
            ++ flat_map ips_calls ["testbox"] ++ [CClose])%list
    /\ exit_status (main Sim.platform ips_only (start Sim.host)) = 0.
Proof.
  apply (ips_frees_every_domain Sim.platform ips_only Sim.host Sim.host Sim.host
           ["testbox"] None);
    reflexivity.
Defined.

Lemma show_all_table_witness :
  stdout (final_world (main Sim.platform show_all (start Sim.host)))
  = summary_line 2 1
      ++ status_row Sim.platform "testbox" VirtStateRunning
      ++ status_row Sim.platform "odd" zero_status
      ++ status_row Sim.platform "archived" VirtStateShutoff
  /\ exit_status (main Sim.platform show_all (start Sim.host)) = 0.
Proof.
  assert (Hd : forall d : Sim.Domain,
             In d (["testbox"; "odd"] ++ ["archived"])%list ->
             lv_GetName Sim.platform d Sim.host = ((d, None), Sim.host)
             /\ lv_LookupDomainByName Sim.platform d Sim.host
                = ((Some d, None), Sim.host)
             /\ lv_GetInfo Sim.platform d Sim.host
                = ((Some (info_on Sim.host d), None), Sim.host)).
  { intros d [<-|[<-|[<-|[]]]]; repeat split; reflexivity. }
  destruct (show_all_table Sim.platform show_all Sim.host Sim.host
              ["testbox"; "odd"] ["archived"] (fun d => d) (fun d => d)
              (info_on Sim.host) eq_refl eq_refl eq_refl eq_refl Hd) as [E X].
  split; [|exact X]. rewrite E. reflexivity.
Defined.

Lemma ips_text_witness :
  exists w' : World,
    main agent_platform ips_only (start Sim.host) = Return tt w'
    /\ stdout w'
       = running_line 1
           ++ table (map (fun d => plain_domain_block d [eth0]) ["testbox"])
    /\ exit_status (main agent_platform ips_only (start Sim.host)) = 0.
Proof.
  apply (ips_text agent_platform ips_only Sim.host Sim.host ["testbox"]
           (fun d => d) (fun _ => [eth0]));
    try reflexivity.
  - intros d [<-|[]]; repeat split; reflexivity.
  - intros d i a [<-|[]] [<-|[]] [<-|[<-|[]]] H; cbn in H;
      repeat (destruct H as [H|H]; [discriminate H|]); exact H.
Defined.

Lemma status_row_layout_witness :
  String.length (status_row Sim.platform "archived" VirtStateShutoff) = 47%nat
  /\ exists gap rest : string,
      status_row Sim.platform "archived" VirtStateShutoff
      = "archived" ++ gap ++ VirtStateShutoff ++ rest
      /\ String.length ("archived" ++ gap) = 31%nat.
Proof.
  apply (proj2 (status_row_layout Sim.platform "archived" VirtStateShutoff));
    first [reflexivity | cbn; lia].
Defined.
